(** * CPU Babel Generator: seed sampler, module composer, similarity search

    A shallow embedding of [cpu_babel_generator.py].  Python values are
    modelled by a small tagged union, dictionaries by insertion-ordered
    association lists (the order is what [str(params)] prints), exceptions by
    an error type, and the two pieces of global state the program touches (the
    state of the [random] module's generator, and the file system together
    with standard output) by explicit state passing.

    [hashlib.md5] is modelled bit for bit (RFC 1321).  The generator behind
    [random] and the builtin [hash] on strings are parameters: the first with
    the one contract of [Random._randbelow] the program relies on, the second
    with none (it is salted per process). *)

From Stdlib Require Import ZArith List String Ascii Bool Lia.
From Stdlib Require Import Permutation Sorted DecimalString.
Import ListNotations.

Open Scope list_scope.
Open Scope string_scope.
Open Scope Z_scope.

(** ** Exceptions and the state-and-exception monad *)

Inductive exn : Type :=
| KeyError (key : string)
| IndexError
| ValueError
| TypeError
| UnicodeEncodeError.

Inductive result (A : Type) : Type :=
| Ok (a : A)
| Raise (e : exn).

Arguments Ok {A} a.
Arguments Raise {A} e.

(** A computation over a state [S] that returns or raises; a raise keeps the
    state reached so far, as a Python exception does. *)
Definition M (S A : Type) : Type := S -> result A * S.

Definition ret {S A : Type} (a : A) : M S A := fun s => (Ok a, s).

Definition raise {S A : Type} (e : exn) : M S A := fun s => (Raise e, s).

Definition bind {S A B : Type} (m : M S A) (k : A -> M S B) : M S B :=
  fun s =>
    match m s with
    | (Ok a, s') => k a s'
    | (Raise e, s') => (Raise e, s')
    end.

Definition lift {S A : Type} (r : result A) : M S A := fun s => (r, s).

Notation "x <- m ;; k" := (bind m (fun x => k))
  (at level 61, m at next level, right associativity).

(** [[f(x) for x in l]], evaluated left to right. *)
Fixpoint mapM {S A B : Type} (f : A -> M S B) (l : list A) : M S (list B) :=
  match l with
  | [] => ret []
  | x :: l' => y <- f x ;; ys <- mapM f l' ;; ret (y :: ys)
  end.

(** ** Python values *)

#[warnings="-register-all"]
Inductive value : Type :=
| VInt (z : Z)
| VStr (s : string)
| VList (l : list value).

(** A [dict] with string keys, in insertion order, without repeated keys. *)
Definition dict : Type := list (string * value).

Fixpoint dict_get (d : dict) (k : string) : option value :=
  match d with
  | [] => None
  | (k', v) :: d' => if String.eqb k k' then Some v else dict_get d' k
  end.

(** [k in d] *)
Definition dict_mem (d : dict) (k : string) : bool :=
  match dict_get d k with Some _ => true | None => false end.

(** [d[k]] *)
Definition dict_item (d : dict) (k : string) : result value :=
  match dict_get d k with Some v => Ok v | None => Raise (KeyError k) end.

(** [d[k] = v]: an existing key keeps its place, a new one goes last. *)
Fixpoint dict_set (d : dict) (k : string) (v : value) : dict :=
  match d with
  | [] => [(k, v)]
  | (k', v') :: d' =>
      if String.eqb k k' then (k', v) :: d' else (k', v') :: dict_set d' k v
  end.

(** [==] on values: values of different types are unequal. *)
Fixpoint value_eqb (a b : value) : bool :=
  match a, b with
  | VInt x, VInt y => x =? y
  | VStr x, VStr y => String.eqb x y
  | VList x, VList y =>
      (fix list_eqb (x y : list value) : bool :=
         match x, y with
         | [], [] => true
         | a' :: x', b' :: y' => value_eqb a' b' && list_eqb x' y'
         | _, _ => false
         end) x y
  | _, _ => false
  end.

(** ** Python text: [str], [repr], [join], [encode]

    A [string] is a Python [str] whose code points are below 256; UTF-8
    encodes every such str. *)

Definition newline : string := String "010"%char EmptyString.

Definition code (c : ascii) : Z := Z.of_N (N_of_ascii c).

Definition hex_digit (n : Z) : ascii :=
  ascii_of_N (Z.to_N (if n <? 10 then 48 + n else 87 + n)).

Definition hex2 (n : Z) : string :=
  String (hex_digit (n / 16)) (String (hex_digit (n mod 16)) EmptyString).

(** [sep.join(parts)] *)
Definition join (sep : string) (parts : list string) : string :=
  String.concat sep parts.

(** [str(z)] for an int *)
Definition str_int (z : Z) : string :=
  DecimalString.NilEmpty.string_of_int (Z.to_int z).

Fixpoint occurs (c : ascii) (s : string) : bool :=
  match s with
  | EmptyString => false
  | String c' s' => Ascii.eqb c c' || occurs c s'
  end.

Definition squote : ascii := "'"%char.
Definition dquote : ascii := "034"%char.
Definition backslash : ascii := "\"%char.

(** [str.isprintable] on one code point below 256. *)
Definition printable (c : ascii) : bool :=
  let n := code c in
  ((32 <=? n) && (n <? 127)) || ((161 <=? n) && negb (n =? 173)).

Definition repr_char (quote c : ascii) : string :=
  let n := code c in
  if Ascii.eqb c quote || Ascii.eqb c backslash then String backslash (String c EmptyString)
  else if n =? 9 then String backslash "t"
  else if n =? 10 then String backslash "n"
  else if n =? 13 then String backslash "r"
  else if printable c then String c EmptyString
  else String backslash ("x" ++ hex2 n).

Fixpoint repr_chars (quote : ascii) (s : string) : string :=
  match s with
  | EmptyString => EmptyString
  | String c s' => repr_char quote c ++ repr_chars quote s'
  end.

(** [repr(s)] for a str: single quotes, unless the text has one and no
    double quote. *)
Definition repr_str (s : string) : string :=
  let quote := if occurs squote s && negb (occurs dquote s) then dquote else squote in
  String quote (repr_chars quote s ++ String quote EmptyString).

Fixpoint py_repr (v : value) : string :=
  match v with
  | VInt z => str_int z
  | VStr s => repr_str s
  | VList l => "[" ++ join ", " (map py_repr l) ++ "]"
  end.

(** [str(v)], which is also what an f-string field [{v}] renders. *)
Definition py_str (v : value) : string :=
  match v with
  | VStr s => s
  | _ => py_repr v
  end.

(** [str(d)] for a dict *)
Definition str_dict (d : dict) : string :=
  "{" ++ join ", " (map (fun kv => repr_str (fst kv) ++ ": " ++ py_repr (snd kv)) d) ++ "}".

(** [s.encode()]: UTF-8, as a list of bytes. *)
Fixpoint encode (s : string) : list Z :=
  match s with
  | EmptyString => []
  | String c s' =>
      let n := code c in
      if n <? 128 then n :: encode s'
      else (192 + n / 64) :: (128 + n mod 64) :: encode s'
  end.

(** *** A str in full

    A Python [str] is a sequence of code points, numbers from 0 to 0x10FFFF
    (a number outside that range stands for no str).  The [string]s above are
    the strs whose code points are below 256, and [points] gives their code
    points.  A str can hold a lone surrogate, a code point from U+D800 to
    U+DFFF ([sys.argv] holds one for every byte of the command line that
    could not be decoded): such a code point has no UTF-8 encoding. *)
Definition unicode : Type := list Z.

Definition points (s : string) : unicode := map code (list_ascii_of_string s).

Definition is_surrogate (c : Z) : bool := (55296 <=? c) && (c <=? 57343).

(** The UTF-8 encoding of one code point: one to four bytes. *)
Definition utf8 (c : Z) : list Z :=
  if c <? 128 then [c]
  else if c <? 2048 then [192 + c / 64; 128 + c mod 64]
  else if c <? 65536 then
    [224 + c / 4096; 128 + (c / 64) mod 64; 128 + c mod 64]
  else
    [240 + c / 262144; 128 + (c / 4096) mod 64; 128 + (c / 64) mod 64;
     128 + c mod 64].

(** [s.encode()] on any str: [UnicodeEncodeError] when the str holds a
    surrogate, its UTF-8 bytes otherwise. *)
Definition encode_points (s : unicode) : result (list Z) :=
  if existsb is_surrogate s then Raise UnicodeEncodeError
  else Ok (flat_map utf8 s).

(** [l[:stop]]: a negative [stop] counts from the end. *)
Definition slice_to {A : Type} (l : list A) (stop : Z) : list A :=
  let len := Z.of_nat (List.length l) in
  firstn (Z.to_nat (if stop <? 0 then stop + len else stop)) l.

(** [l[i]], a negative [i] counts from the end. *)
Definition index {A : Type} (l : list A) (i : Z) : result A :=
  let len := Z.of_nat (List.length l) in
  let i' := if i <? 0 then i + len else i in
  if (0 <=? i') && (i' <? len) then
    match nth_error l (Z.to_nat i') with
    | Some x => Ok x
    | None => Raise IndexError
    end
  else Raise IndexError.

(** [l[i] = x] for an index in range. *)
Fixpoint set_nth {A : Type} (l : list A) (i : nat) (x : A) : list A :=
  match l, i with
  | [], _ => []
  | _ :: l', O => x :: l'
  | y :: l', S i' => y :: set_nth l' i' x
  end.

Definition set_index {A : Type} (l : list A) (i : Z) (x : A) : result (list A) :=
  let len := Z.of_nat (List.length l) in
  let i' := if i <? 0 then i + len else i in
  if (0 <=? i') && (i' <? len) then Ok (set_nth l (Z.to_nat i') x)
  else Raise IndexError.

(** ** hashlib.md5 (RFC 1321) *)

Module Hashlib.

Definition mask32 : Z := 0xffffffff.

Definition add32 (x y : Z) : Z := Z.land (x + y) mask32.

Definition not32 (x : Z) : Z := Z.lxor x mask32.

Definition rotl32 (x c : Z) : Z :=
  Z.land (Z.lor (Z.shiftl x c) (Z.shiftr x (32 - c))) mask32.

Definition shifts : list Z :=
  [7; 12; 17; 22; 7; 12; 17; 22; 7; 12; 17; 22; 7; 12; 17; 22;
   5; 9; 14; 20; 5; 9; 14; 20; 5; 9; 14; 20; 5; 9; 14; 20;
   4; 11; 16; 23; 4; 11; 16; 23; 4; 11; 16; 23; 4; 11; 16; 23;
   6; 10; 15; 21; 6; 10; 15; 21; 6; 10; 15; 21; 6; 10; 15; 21].

Definition sines : list Z :=
  [0xd76aa478; 0xe8c7b756; 0x242070db; 0xc1bdceee;
   0xf57c0faf; 0x4787c62a; 0xa8304613; 0xfd469501;
   0x698098d8; 0x8b44f7af; 0xffff5bb1; 0x895cd7be;
   0x6b901122; 0xfd987193; 0xa679438e; 0x49b40821;
   0xf61e2562; 0xc040b340; 0x265e5a51; 0xe9b6c7aa;
   0xd62f105d; 0x02441453; 0xd8a1e681; 0xe7d3fbc8;
   0x21e1cde6; 0xc33707d6; 0xf4d50d87; 0x455a14ed;
   0xa9e3e905; 0xfcefa3f8; 0x676f02d9; 0x8d2a4c8a;
   0xfffa3942; 0x8771f681; 0x6d9d6122; 0xfde5380c;
   0xa4beea44; 0x4bdecfa9; 0xf6bb4b60; 0xbebfbc70;
   0x289b7ec6; 0xeaa127fa; 0xd4ef3085; 0x04881d05;
   0xd9d4d039; 0xe6db99e5; 0x1fa27cf8; 0xc4ac5665;
   0xf4292244; 0x432aff97; 0xab9423a7; 0xfc93a039;
   0x655b59c3; 0x8f0ccc92; 0xffeff47d; 0x85845dd1;
   0x6fa87e4f; 0xfe2ce6e0; 0xa3014314; 0x4e0811a1;
   0xf7537e82; 0xbd3af235; 0x2ad7d2bb; 0xeb86d391].

(** The [n] low bytes of [x], least significant first. *)
Definition bytes_le (n : nat) (x : Z) : list Z :=
  map (fun i => Z.land (Z.shiftr x (8 * Z.of_nat i)) 255) (seq 0 n).

(** Little-endian 32-bit words of a byte list whose length is a multiple
    of four. *)
Fixpoint words_le (bytes : list Z) : list Z :=
  match bytes with
  | b0 :: b1 :: b2 :: b3 :: rest =>
      (b0 + 256 * b1 + 65536 * b2 + 16777216 * b3) :: words_le rest
  | _ => []
  end.

(** The message, a one bit, zeros up to 56 modulo 64 bytes, and the length
    in bits on 64 bits. *)
Definition padding (msg : list Z) : list Z :=
  let len := Z.of_nat (List.length msg) in
  (msg ++ [128] ++ repeat 0 (Z.to_nat ((55 - len) mod 64))
       ++ bytes_le 8 ((8 * len) mod 2 ^ 64))%list.

Fixpoint blocks (n : nat) (words : list Z) : list (list Z) :=
  match n with
  | O => []
  | S n' => firstn 16 words :: blocks n' (skipn 16 words)
  end.

Definition state : Type := Z * Z * Z * Z.

Definition step (block : list Z) (st : state) (i : Z) : state :=
  let '(a, b, c, d) := st in
  let '(f, g) :=
    if i <? 16 then (Z.lor (Z.land b c) (Z.land (not32 b) d), i)
    else if i <? 32 then (Z.lor (Z.land d b) (Z.land (not32 d) c), (5 * i + 1) mod 16)
    else if i <? 48 then (Z.lxor b (Z.lxor c d), (3 * i + 5) mod 16)
    else (Z.lxor c (Z.lor b (not32 d)), (7 * i) mod 16) in
  let f' :=
    add32 (add32 (add32 f a) (nth (Z.to_nat i) sines 0)) (nth (Z.to_nat g) block 0) in
  (d, add32 b (rotl32 f' (nth (Z.to_nat i) shifts 0)), b, c).

Definition compress (st : state) (block : list Z) : state :=
  let '(a0, b0, c0, d0) := st in
  let '(a, b, c, d) := fold_left (step block) (map Z.of_nat (seq 0 64)) st in
  (add32 a0 a, add32 b0 b, add32 c0 c, add32 d0 d).

Definition init : state := (0x67452301, 0xefcdab89, 0x98badcfe, 0x10325476).

(** [hashlib.md5(msg).digest()] *)
Definition digest (msg : list Z) : list Z :=
  let words := words_le (padding msg) in
  let '(a, b, c, d) := fold_left compress (blocks (Nat.div (List.length words) 16) words) init in
  (bytes_le 4 a ++ bytes_le 4 b ++ bytes_le 4 c ++ bytes_le 4 d)%list.

(** [hashlib.md5(msg).hexdigest()] *)
Definition hexdigest (msg : list Z) : string :=
  String.concat "" (map hex2 (digest msg)).

End Hashlib.

(** [int(s, 16)] on a string of lower-case hexadecimal digits. *)
Definition hex_value (c : ascii) : Z :=
  let n := code c in if n <? 58 then n - 48 else n - 87.

Fixpoint int_of_hex_from (acc : Z) (s : string) : Z :=
  match s with
  | EmptyString => acc
  | String c s' => int_of_hex_from (16 * acc + hex_value c) s'
  end.

Definition int_of_hex (s : string) : Z := int_of_hex_from 0 s.

(** [s[:n]] on a str, for [n >= 0]. *)
Definition str_prefix (n : nat) (s : string) : string := String.substring 0 n s.

(** ** The catalog: class MicroX86Params *)

Module MicroX86Params.

Definition NUM_REGS_OPTIONS : list value := [VInt 4; VInt 6; VInt 8].

Definition REG_NAMES : list string :=
  ["RAX"; "RBX"; "RCX"; "RDX"; "R8"; "R9"; "R10"; "R11"].

Definition INSTRUCTIONS : list value :=
  map VStr ["ADD"; "SUB"; "AND"; "OR"; "XOR"; "INC"; "DEC";
            "MOV"; "JMP"; "CMP"; "JE"; "JNE"; "PUSH"; "POP"].

Definition ADDRESSING_MODES : list value := [VInt 1; VInt 2; VInt 3].

Definition DECODER_TYPES : list value := [VStr "hardwired"; VStr "microcoded"].

Definition PIPELINE_DEPTHS : list value := [VInt 2; VInt 3; VInt 4].

Definition EXEC_UNITS : list value := [VStr "single_alu"; VStr "separate_agu_alu"].

Definition MEMORY_TYPES : list value := [VStr "simple"; VStr "cached"].

Definition LEXICON : list (string * dict) :=
  [("cisc", [("decoder", VStr "microcoded")]);
   ("risc_like", [("decoder", VStr "hardwired")]);
   ("compact", [("num_regs", VInt 4); ("addressing_modes", VList [VInt 1])]);
   ("powerful", [("num_regs", VInt 8); ("addressing_modes", VList [VInt 1; VInt 2; VInt 3])]);
   ("fast_memory", [("memory", VStr "cached")]);
   ("simple_memory", [("memory", VStr "simple")]);
   ("deep_pipeline", [("pipeline_depth", VInt 4)]);
   ("shallow_pipeline", [("pipeline_depth", VInt 2)])].

End MicroX86Params.

(** [LEXICON.get(word)] *)
Fixpoint lexicon_get (lexicon : list (string * dict)) (word : string) : option dict :=
  match lexicon with
  | [] => None
  | (w, entry) :: rest => if String.eqb word w then Some entry else lexicon_get rest word
  end.

(** [len(l)] *)
Definition len {A : Type} (l : list A) : Z := Z.of_nat (List.length l).

(** [range(k)] *)
Definition range (k : Z) : list Z := map Z.of_nat (seq 0 (Z.to_nat k)).

(** A [for] loop over [l] that threads the loop's variables [b]. *)
Fixpoint foldM {S A B : Type} (f : B -> A -> M S B) (l : list A) (b : B) : M S B :=
  match l with
  | [] => ret b
  | x :: l' => b' <- f b x ;; foldM f l' b'
  end.

(** [list.sort(key=...)] for a key in Z.  Python's sort is stable, and the
    stable sorted arrangement of a list is unique, so insertion from the right
    computes the list Python computes. *)
Fixpoint insert_by {A : Type} (key : A -> Z) (x : A) (l : list A) : list A :=
  match l with
  | [] => [x]
  | y :: l' => if key x <=? key y then x :: y :: l' else y :: insert_by key x l'
  end.

Fixpoint sort_by {A : Type} (key : A -> Z) (l : list A) : list A :=
  match l with
  | [] => []
  | x :: l' => insert_by key x (sort_by key l')
  end.


(** The design point [seed_to_params] builds, field by field. *)
Definition design_point
    (num_regs : value) (addressing_modes : list value)
    (decoder_type pipeline_depth exec_units memory_type : value) : dict :=
  [("num_regs", num_regs);
   ("addressing_modes", VList addressing_modes);
   ("decoder_type", decoder_type);
   ("pipeline_depth", pipeline_depth);
   ("exec_units", exec_units);
   ("memory_type", memory_type);
   ("instructions", VList MicroX86Params.INSTRUCTIONS)].

(** A list of addressing modes of the catalog: a non-empty subset, each mode
    at most once. *)
Definition valid_modes (addressing_modes : list value) : Prop :=
  addressing_modes <> [] /\ NoDup addressing_modes
  /\ incl addressing_modes MicroX86Params.ADDRESSING_MODES.

(** A design point all of whose fields are options of the catalog. *)
Definition valid_point (p : dict) : Prop :=
  exists num_regs addressing_modes decoder_type pipeline_depth exec_units memory_type,
    p = design_point num_regs addressing_modes decoder_type pipeline_depth
          exec_units memory_type
    /\ In num_regs MicroX86Params.NUM_REGS_OPTIONS
    /\ valid_modes addressing_modes
    /\ In decoder_type MicroX86Params.DECODER_TYPES
    /\ In pipeline_depth MicroX86Params.PIPELINE_DEPTHS
    /\ In exec_units MicroX86Params.EXEC_UNITS
    /\ In memory_type MicroX86Params.MEMORY_TYPES.

(** The sum of a list of integers. *)
Definition sum_Z (l : list Z) : Z := fold_right Z.add 0 l.

(** The distance as the specification words it, for comparison with the one
    [similarity_search] computes: over the fields of the target, nothing for
    a field whose value is the required one, the constant [c] for any other. *)
Definition spec_distance (c : Z) (target_params gen_params : dict) : Z :=
  sum_Z
    (map (fun kv =>
            match dict_get gen_params (fst kv) with
            | Some g => if value_eqb g (snd kv) then 0 else c
            | None => c
            end)
         target_params).

(** The default of the parameter [max_results] of [similarity_search]. *)
Definition default_max_results : Z := 5.





(** A valid design point with split address and ALU units. *)
Definition split_units_point : dict :=
  design_point (VInt 4) [VInt 1; VInt 3] (VStr "hardwired") (VInt 2)
    (VStr "separate_agu_alu") (VStr "simple").


(** ** The module composer *)

Definition result_bind {A B : Type} (r : result A) (k : A -> result B) : result B :=
  match r with
  | Ok a => k a
  | Raise e => Raise e
  end.

Notation "'let?' x ':=' r 'in' k" := (result_bind r (fun x => k))
  (at level 10, x name, r at level 100, k at level 200).

(** A triple-quoted template: it opens with a line break, and every line
    ends with one. *)
Definition text_of_lines (lines : list string) : string :=
  newline ++ String.concat "" (map (fun l => l ++ newline) lines).

Definition reg_file_lines (num_regs : value) (reg_width : Z) : list string :=
  ["module reg_file #(";
   ("    parameter NUM_REGS = " ++ py_str num_regs ++ ",");
   ("    parameter REG_WIDTH = " ++ str_int reg_width);
   ")(";
   "    input clk,";
   "    input we,  // write enable";
   "    input [${NUM_REGS-1}:0] waddr,  // write address";
   "    input [${NUM_REGS-1}:0] raddr1, raddr2,";
   "    input [REG_WIDTH-1:0] wdata,";
   "    output [REG_WIDTH-1:0] rdata1, rdata2";
   ");";
   "    reg [REG_WIDTH-1:0] regs [0:NUM_REGS-1];";
   "    ";
   "    integer i;";
   "    initial begin";
   "        for (i = 0; i < NUM_REGS; i = i + 1) begin";
   "            regs[i] = 64'h0;";
   "        end";
   "    end";
   "    ";
   "    always @(posedge clk) begin";
   "        if (we) begin";
   "            regs[waddr] <= wdata;";
   "        end";
   "    end";
   "    ";
   "    assign rdata1 = regs[raddr1];";
   "    assign rdata2 = regs[raddr2];";
   "endmodule"].

Definition decoder_hardwired_lines : list string :=
  ["module decoder_hardwired (";
   "    input [31:0] instr,";
   "    output reg [3:0] opcode,  // Simplified 4-bit opcode";
   "    output reg [2:0] dest_reg,";
   "    output reg [2:0] src1_reg,";
   "    output reg [3:0] mode,  // Addressing mode";
   "    output reg [13:0] imm  // Immediate";
   ");";
   "    // Hardwired decoding logic";
   "    always @(*) begin";
   "        opcode = instr[31:28];";
   "        dest_reg = instr[27:25];";
   "        src1_reg = instr[24:22];";
   "        mode = instr[21:18];";
   "        imm = instr[17:4];";
   "    end";
   "endmodule"].

Definition decoder_microcoded_lines : list string :=
  ["module decoder_microcoded (";
   "    input [31:0] instr,";
   "    input clk,";
   "    output reg [15:0] micro_addr,  // Microcode address";
   "    output reg micro_we";
   ");";
   "    // Simple microcode ROM (generated separately)";
   "    reg [31:0] micro_rom [0:255];  // 256 entries, 32-bit microinstructions";
   "    ";
   "    initial begin";
   "        // Microcode initialization would be populated by generator";
   "        // For now, placeholder";
   "        micro_rom[0] = 32'hDEADBEEF;  // Example";
   "    end";
   "    ";
   "    always @(*) begin";
   "        // Decode to micro-op address";
   "        micro_addr = instr[15:0];  // Simplified";
   "        micro_we = 1'b0;";
   "    end";
   "endmodule"].

Definition alu_lines : list string :=
  ["module alu (";
   "    input [3:0] op,";
   "    input [63:0] a, b,";
   "    output reg [63:0] result,";
   "    output reg zero_flag";
   ");";
   "    always @(*) begin";
   "        case (op)";
   "            4'h1: result = a + b;  // ADD";
   "            4'h2: result = a - b;  // SUB";
   "            4'h3: result = a & b;  // AND";
   "            4'h4: result = a | b;  // OR";
   "            4'h5: result = a ^ b;  // XOR";
   "            default: result = a;";
   "        endcase";
   "        zero_flag = (result == 64'h0);";
   "    end";
   "endmodule"].

Definition agu_alu_separate_lines : list string :=
  ["module agu_alu_separate (";
   "    input [3:0] op,";
   "    input [63:0] a, b,";
   "    input is_memory_op,";
   "    output reg [63:0] result,";
   "    output reg [63:0] addr_calc,";
   "    output reg zero_flag";
   ");";
   "    // ALU part";
   "    always @(*) begin";
   "        if (is_memory_op) begin";
   "            addr_calc = a + b;  // Address generation";
   "            result = 64'h0;";
   "        end else begin";
   "            case (op)";
   "                4'h1: result = a + b;";
   "                // ... other ops";
   "                default: result = a;";
   "            endcase";
   "            addr_calc = 64'h0;";
   "        end";
   "        zero_flag = (result == 64'h0);";
   "    end";
   "endmodule"].

Definition memory_simple_lines : list string :=
  ["module memory_simple (";
   "    input clk,";
   "    input [63:0] addr,";
   "    input [63:0] wdata,";
   "    input we,";
   "    output reg [63:0] rdata";
   ");";
   "    reg [63:0] mem [0:1023];  // Small memory 1KB";
   "    ";
   "    always @(posedge clk) begin";
   "        if (we) begin";
   "            mem[addr[9:0]] <= wdata;  // Simplified addressing";
   "        end";
   "        rdata <= mem[addr[9:0]];";
   "    end";
   "endmodule"].

Definition memory_cached_lines : list string :=
  ["module memory_cached (";
   "    input clk,";
   "    input [63:0] addr,";
   "    input [63:0] wdata,";
   "    input we,";
   "    output reg [63:0] rdata,";
   "    output reg hit";
   ");";
   "    // Simple direct-mapped I-cache, 16 entries, 4 words each";
   "    reg [63:0] cache_data [0:15][0:3];";
   "    reg [63:0] cache_tags [0:15];";
   "    reg [3:0] valid [0:15];";
   "    ";
   "    // Simplified cache logic (placeholder)";
   "    always @(*) begin";
   "        // Cache hit/miss logic here";
   "        hit = 1'b1;  // Assume hit for simplicity";
   "        rdata = cache_data[addr[7:4]][addr[3:2]];";
   "    end";
   "endmodule"].

(** The f-string of [generate_top_level_verilog].  Its fields in doubled
    braces are escapes, not fields: the lines [{params}],
    [{chr(10).join(verilog_parts)}] and the [{pipeline_depth}] of the comment
    come out as written, braces single. *)
Definition top_lines
    (num_regs pipeline_depth decoder_type memory_type : value)
    (reg_names : list string) : list string :=
  ["// Top-level micro-x86-64 core";
   "// Parameters: {params}";
   "";
   "{chr(10).join(verilog_parts)}";
   "";
   "module micro_x86_core #(";
   ("    parameter NUM_REGS = " ++ py_str num_regs ++ ",");
   ("    parameter PIPELINE_DEPTH = " ++ py_str pipeline_depth);
   ")(";
   "    input clk,";
   "    input reset,";
   "    input [31:0] instr,  // From fetch stage";
   "    output [63:0] pc_out";
   ");";
   "";
   "    wire [63:0] rdata1, rdata2;";
   "    wire [3:0] opcode;";
   "    wire [2:0] dest_reg, src1_reg;";
   "    wire [3:0] mode;";
   "    wire [13:0] imm;";
   "    wire [63:0] alu_result;";
   "    wire zero_flag;";
   "    ";
   "    // Instantiate components based on params";
   "    reg_file #(.NUM_REGS(NUM_REGS)) rf (";
   "        .clk(clk),";
   "        .we(/* from control */),";
   "        .waddr(dest_reg),";
   "        .raddr1(src1_reg),";
   "        .raddr2(/* src2 */),";
   "        .wdata(alu_result),";
   "        .rdata1(rdata1),";
   "        .rdata2(rdata2)";
   "    );";
   "    ";
   ("    decoder_" ++ py_str decoder_type ++ " dec (");
   "        .instr(instr),";
   "        .opcode(opcode),";
   "        .dest_reg(dest_reg),";
   "        .src1_reg(src1_reg),";
   "        .mode(mode),";
   "        .imm(imm)";
   "    );";
   "    ";
   "    alu alu_inst (";
   "        .op(opcode[3:0]),";
   "        .a(rdata1),";
   "        .b(/* src2 or imm */),";
   "        .result(alu_result),";
   "        .zero_flag(zero_flag)";
   "    );";
   "    ";
   ("    memory_" ++ py_str memory_type ++ " mem_inst (");
   "        .clk(clk),";
   "        .addr(/* effective addr */),";
   "        .wdata(rdata1),";
   "        .we(/* control */),";
   "        .rdata(/* to reg */)";
   "    );";
   "    ";
   "    // Pipeline registers for {pipeline_depth} stages (simplified)";
   ("    reg [63:0] pipeline_regs [" ++ py_str pipeline_depth ++ "][/* width */];");
   "    ";
   "    // PC logic";
   "    reg [63:0] pc;";
   "    always @(posedge clk) begin";
   "        if (reset) pc <= 64'h0;";
   "        else pc <= pc + 32'd4;  // Assume 32-bit instr";
   "    end";
   "    assign pc_out = pc;";
   "    ";
   ("    // Register names for simulation: " ++ join ", " reg_names);
   "    ";
   "endmodule"].

Definition generate_register_file_verilog (params : dict) : result string :=
  let? num_regs := dict_item params "num_regs" in
  let reg_width := 64 in
  Ok (text_of_lines (reg_file_lines num_regs reg_width)).

Definition generate_decoder_verilog (params : dict) : result string :=
  let? decoder_type := dict_item params "decoder_type" in
  if value_eqb decoder_type (VStr "hardwired")
  then Ok (text_of_lines decoder_hardwired_lines)
  else Ok (text_of_lines decoder_microcoded_lines).

Definition generate_alu_verilog (params : dict) : result string :=
  let? exec_units := dict_item params "exec_units" in
  if value_eqb exec_units (VStr "single_alu")
  then Ok (text_of_lines alu_lines)
  else Ok (text_of_lines agu_alu_separate_lines).

Definition generate_memory_interface_verilog (params : dict) : result string :=
  let? memory_type := dict_item params "memory_type" in
  if value_eqb memory_type (VStr "simple")
  then Ok (text_of_lines memory_simple_lines)
  else Ok (text_of_lines memory_cached_lines).

(** [MicroX86Params.REG_NAMES[:num_regs]]: a slice bound must be an int. *)
Definition reg_names_upto (num_regs : value) : result (list string) :=
  match num_regs with
  | VInt z => Ok (slice_to MicroX86Params.REG_NAMES z)
  | _ => Raise TypeError
  end.

(** The local list [verilog_parts] of [generate_top_level_verilog]. *)
Definition verilog_parts (params : dict) : result (list string) :=
  let? rf := generate_register_file_verilog params in
  let? dec := generate_decoder_verilog params in
  let? alu := generate_alu_verilog params in
  let? mem := generate_memory_interface_verilog params in
  Ok [rf; dec; alu; mem].

(** The local string [top_template] of [generate_top_level_verilog]. *)
Definition top_template (params : dict) : result string :=
  let? num_regs := dict_item params "num_regs" in
  let? pipeline_depth := dict_item params "pipeline_depth" in
  let? reg_names := reg_names_upto num_regs in
  let? _ := verilog_parts params in
  let? decoder_type := dict_item params "decoder_type" in
  let? memory_type := dict_item params "memory_type" in
  Ok (text_of_lines
        (top_lines num_regs pipeline_depth decoder_type memory_type reg_names)).

(** [hashlib.md5(str(params).encode()).hexdigest()[:8]] *)
Definition artifact_id (params : dict) : string :=
  str_prefix 8 (Hashlib.hexdigest (encode (str_dict params))).

Fixpoint starts_with (prefix s : string) : bool :=
  match prefix, s with
  | EmptyString, _ => true
  | String a p', String b s' => Ascii.eqb a b && starts_with p' s'
  | _, _ => false
  end.

Fixpoint ends_with_char (c : ascii) (s : string) : bool :=
  match s with
  | EmptyString => false
  | String c' EmptyString => Ascii.eqb c c'
  | String _ s' => ends_with_char c s'
  end.

(** [os.path.join(a, b)] (posixpath) *)
Definition path_join (a b : string) : string :=
  if starts_with "/" b then b
  else if String.eqb a "" || ends_with_char "/"%char a then a ++ b
  else a ++ "/" ++ b.

(** What the composer touches outside itself: the files it writes and the
    lines it prints.  Every write is taken to succeed. *)
Record world : Type := mk_world {
  files : list (string * string);
  stdout : list string
}.

Fixpoint file_get (fs : list (string * string)) (name : string) : option string :=
  match fs with
  | [] => None
  | (n, text) :: fs' => if String.eqb name n then Some text else file_get fs' name
  end.

(** [open(name, 'w')] then [write(text)]: the file holds [text] alone. *)
Definition write_file (name text : string) : M world unit :=
  fun w => (Ok tt, mk_world ((name, text) :: files w) (stdout w)).

Definition print (line : string) : M world unit :=
  fun w => (Ok tt, mk_world (files w) (stdout w ++ [line])%list).

Definition generate_top_level_verilog (params : dict) (output_dir : string)
    : M world string :=
  top <- lift (top_template params) ;;
  let filename :=
    path_join output_dir ("micro_x86_core_" ++ artifact_id params ++ ".v") in
  _ <- write_file filename top ;;
  _ <- print ("Generated Verilog: " ++ filename) ;;
  ret filename.

(** *** Reading module names off generated text *)

Fixpoint split_lines_from (cur : string) (s : string) : list string :=
  match s with
  | EmptyString => [cur]
  | String c s' =>
      if Ascii.eqb c "010"%char then cur :: split_lines_from "" s'
      else split_lines_from (cur ++ String c EmptyString) s'
  end.

(** [text.split(newline)] *)
Definition split_lines (text : string) : list string := split_lines_from "" text.

Fixpoint lstrip (s : string) : string :=
  match s with
  | String " "%char s' => lstrip s'
  | _ => s
  end.

(** The characters before the first blank. *)
Fixpoint first_word (s : string) : string :=
  match s with
  | EmptyString => EmptyString
  | String c s' => if Ascii.eqb c " "%char then EmptyString else String c (first_word s')
  end.

Fixpoint ends_with (suffix s : string) : bool :=
  String.eqb suffix s ||
  match s with
  | EmptyString => false
  | String _ s' => ends_with suffix s'
  end.

(** Whether [needle] occurs in [text]. *)
Fixpoint contains (needle text : string) : bool :=
  starts_with needle text ||
  match text with
  | EmptyString => false
  | String _ text' => contains needle text'
  end.

(** The names a text declares: of each line [module <name> ...], the name. *)
Definition declared_modules (text : string) : list string :=
  flat_map
    (fun l => if starts_with "module " l
              then [first_word (String.substring 7 (String.length l - 7) l)]
              else [])
    (split_lines text).

(** The names a text instantiates: of each line [<name> ... (] that opens an
    instance (it ends in a blank and an opening parenthesis, and is no module
    header), the name. *)
Definition instantiated_modules (text : string) : list string :=
  flat_map
    (fun l => let l' := lstrip l in
              if ends_with " (" l' && negb (starts_with "module " l')
              then [first_word l'] else [])
    (split_lines text).

(** ** The assembler stub, and how a call of [main] can end *)

(** [generate_assembler(params)]: the text does not read [params]. *)
Definition assembler_lines : list string :=
  ["# Simple assembler placeholder";
   "# Input: assembly text, Output: binary instructions";
   "def assemble(line):";
   "    # Parse MOV RAX, 10 -> encode to 32-bit instr";
   "    return 0xDEADBEEF  # Placeholder"].

Definition generate_assembler (params : dict) : string :=
  text_of_lines assembler_lines.

(** How a call ends: it returns, it raises one of the exceptions of [exn],
    it raises the [FileNotFoundError] of a program that cannot be started, or
    it leaves through [sys.exit]. *)
Inductive completion (A : Type) : Type :=
| Returns (a : A)
| Raises (e : exn)
| RaisesFileNotFound
| Exits (status : Z).

Arguments Returns {A} a.
Arguments Raises {A} e.
Arguments RaisesFileNotFound {A}.
Arguments Exits {A} status.

(** [[f"seed_{i}" for i in range(10)]] *)
Definition example_seeds : list string :=
  map (fun i => "seed_" ++ str_int i) (range 10).

(** [repr] of a list of (seed, distance) tuples.  A distance is a float with
    an integer value far below 10**16, which prints as the integer followed
    by [.0]. *)
Definition repr_match (m : string * Z) : string :=
  "(" ++ repr_str (fst m) ++ ", " ++ str_int (snd m) ++ ".0)".

Definition repr_matches (matches : list (string * Z)) : string :=
  "[" ++ join ", " (map repr_match matches) ++ "]".

(** The two commands of [verify_verilog]. *)
Definition syntax_check_command (verilog_file : string) : list string :=
  ["yosys"; "-p"; "read_verilog " ++ verilog_file ++ "; hierarchy -check;"].

Definition synth_command (verilog_file : string) : string :=
  "yosys -p " ++ String dquote
    ("read_verilog " ++ verilog_file ++ "; synth -top micro_x86_core; abc; stat"
       ++ String dquote "").

(** ** Words of a query *)

(** Whether the lexicon knows a word. *)
Definition known_word (w : string) : bool :=
  match lexicon_get MicroX86Params.LEXICON w with
  | Some _ => true
  | None => false
  end.

(** The words whose lexicon entry names a field of a design point. *)
Definition effective_word (w : string) : bool :=
  negb (existsb (String.eqb w) ["cisc"; "risc_like"; "fast_memory"; "simple_memory"]).

(** The fields of a target that are fields of a design point. *)
Definition sampled_field (kv : string * value) : bool :=
  negb (String.eqb (fst kv) "decoder" || String.eqb (fst kv) "memory").

(** The fields the lexicon can constrain. *)
Definition lexicon_fields : list string :=
  ["decoder"; "num_regs"; "addressing_modes"; "memory"; "pipeline_depth"].

(** Whether a character is one of 0-9, a-f. *)
Definition is_hex_digit (c : ascii) : bool :=
  let n := code c in
  ((48 <=? n) && (n <=? 57)) || ((97 <=? n) && (n <=? 102)).

Fixpoint all_chars (f : ascii -> bool) (s : string) : bool :=
  match s with
  | EmptyString => true
  | String c s' => f c && all_chars f s'
  end.

(** A dict that lacks [memory_type], and a design point that declares more
    registers than [REG_NAMES] names. *)
Definition point_without_memory : dict :=
  [("num_regs", VInt 4); ("pipeline_depth", VInt 2);
   ("decoder_type", VStr "hardwired"); ("exec_units", VStr "single_alu")].

Definition twelve_register_point : dict :=
  design_point (VInt 12) [VInt 1] (VStr "hardwired") (VInt 2)
    (VStr "single_alu") (VStr "simple").

(** Tools that always start and always succeed, to run [main] on. *)
Module Tools.

Definition run_command (cmd : list string) (w : world) : option Z := Some 0.

Definition run_shell (cmd : string) (w : world) : Z * string * string :=
  (0, "Number of cells: 42", "").


(** A [yosys] that rejects the file. *)
Definition failing_command (cmd : list string) (w : world) : option Z := Some 1.

End Tools.
(** ** A concrete generator and hash

    A linear congruential generator in the place of the Mersenne Twister, and
    a polynomial hash in the place of the salted one.  They show that the
    contract assumed of [_randbelow] can be met, and give the general
    statements below something to run on. *)

Module Lcg.

Definition rng : Type := Z.

Definition rng_seed (a : Z) : rng := a mod 2 ^ 64.

Definition next (g : rng) : rng :=
  (6364136223846793005 * g + 1442695040888963407) mod 2 ^ 64.

Definition randbelow (n : Z) (g : rng) : Z * rng := ((g / 2 ^ 33) mod n, next g).

Fixpoint py_hash_from (acc : Z) (s : string) : Z :=
  match s with
  | EmptyString => acc
  | String c s' => py_hash_from ((31 * acc + code c) mod 2 ^ 61) s'
  end.

Definition py_hash (s : string) : Z := py_hash_from 7 s.

(** The candidates of [main]: seed_0 to seed_9. *)
Definition example_seeds : list string :=
  map (fun i => "seed_" ++ str_int i) (range 10).

(** The design point this generator samples from seed_10 and from seed_35
    alike, and the one it samples from seed_0. *)
Definition shared_point : dict :=
  design_point (VInt 8) [VInt 1; VInt 3; VInt 2] (VStr "microcoded") (VInt 4)
    (VStr "single_alu") (VStr "simple").

Definition seed_0_point : dict :=
  design_point (VInt 4) [VInt 1; VInt 3] (VStr "hardwired") (VInt 4)
    (VStr "single_alu") (VStr "cached").

End Lcg.

(** ** The [random] module, the seed sampler and the similarity search *)

Section Generator.

(** The state of the module-level generator of [random]. *)
Variable rng : Type.

(** The state [random.seed(a)] leaves for an int [a]. *)
Variable rng_seed : Z -> rng.

(** [Random._randbelow(n)]: the number drawn and the state after the draw. *)
Variable randbelow : Z -> rng -> Z * rng.

(** Its contract, in the words of its docstring: "Return a random int in
    the range [0,n).  Defined for n > 0."  (The loop in which CPython rejects
    draws of [n] and above is taken to end.) *)
Hypothesis randbelow_range :
  forall (n : Z) (g : rng), 0 < n -> 0 <= fst (randbelow n g) < n.

(** The builtin [hash] on a str, as fixed for the running process. *)
Variable py_hash : string -> Z.

Definition seed (a : Z) : M rng unit := fun _ => (Ok tt, rng_seed a).

Definition _randbelow (n : Z) : M rng Z :=
  fun g => let (r, g') := randbelow n g in (Ok r, g').

(** [random.choice(seq)] *)
Definition choice {A : Type} (seq : list A) : M rng A :=
  if len seq =? 0 then raise IndexError
  else j <- _randbelow (len seq) ;; lift (index seq j).

(** [random.randrange(start, stop)] *)
Definition randrange (start stop : Z) : M rng Z :=
  let width := stop - start in
  if 0 <? width then r <- _randbelow width ;; ret (start + r)
  else raise ValueError.

(** [random.randint(a, b)] *)
Definition randint (a b : Z) : M rng Z := randrange a (b + 1).

(** [random.sample(population, k)] on a population of at most 21 elements,
    for which CPython always takes the pool branch: draw a position among the
    [n - i] items not selected yet, take the item, and move the last of them
    into the vacancy.  [result[i] = pool[j]] fills [result] from the left. *)
Definition sample_step {A : Type} (n : Z) (st : list A * list A) (i : Z)
    : M rng (list A * list A) :=
  let (result, pool) := st in
  j <- _randbelow (n - i) ;;
  x <- lift (index pool j) ;;
  y <- lift (index pool (n - i - 1)) ;;
  pool' <- lift (set_index pool j y) ;;
  ret ((result ++ [x])%list, pool').

Definition sample {A : Type} (population : list A) (k : Z) : M rng (list A) :=
  let n := len population in
  if negb ((0 <=? k) && (k <=? n)) then raise ValueError
  else st <- foldM (sample_step n) (range k) ([], population) ;; ret (fst st).

(** [seed_to_params(seed)]: the entries of the dict literal are evaluated
    in the order written, and the argument [k] of [sample] before the call. *)
Definition seed_to_params (seed_str : string) : M rng dict :=
  _ <- seed (int_of_hex (Hashlib.hexdigest (encode seed_str))) ;;
  num_regs <- choice MicroX86Params.NUM_REGS_OPTIONS ;;
  k <- randint 1 (len MicroX86Params.ADDRESSING_MODES) ;;
  addressing_modes <- sample MicroX86Params.ADDRESSING_MODES k ;;
  decoder_type <- choice MicroX86Params.DECODER_TYPES ;;
  pipeline_depth <- choice MicroX86Params.PIPELINE_DEPTHS ;;
  exec_units <- choice MicroX86Params.EXEC_UNITS ;;
  memory_type <- choice MicroX86Params.MEMORY_TYPES ;;
  ret (design_point num_regs addressing_modes decoder_type pipeline_depth
         exec_units memory_type).

(** [seed_to_params(seed)] for a seed given by its code points, so for every
    str: [seed.encode()] is evaluated first and may raise, before the
    generator is touched.  On the code points of a [string] this is
    [seed_to_params] above. *)
Definition seed_to_params_points (seed_points : unicode) : M rng dict :=
  data <- lift (encode_points seed_points) ;;
  _ <- seed (int_of_hex (Hashlib.hexdigest data)) ;;
  num_regs <- choice MicroX86Params.NUM_REGS_OPTIONS ;;
  k <- randint 1 (len MicroX86Params.ADDRESSING_MODES) ;;
  addressing_modes <- sample MicroX86Params.ADDRESSING_MODES k ;;
  decoder_type <- choice MicroX86Params.DECODER_TYPES ;;
  pipeline_depth <- choice MicroX86Params.PIPELINE_DEPTHS ;;
  exec_units <- choice MicroX86Params.EXEC_UNITS ;;
  memory_type <- choice MicroX86Params.MEMORY_TYPES ;;
  ret (design_point num_regs addressing_modes decoder_type pipeline_depth
         exec_units memory_type).

(** The first loop of [similarity_search]: the words of the query, in order,
    each known word overriding the fields it names. *)
Definition target_of (query_words : list string) : dict :=
  fold_left
    (fun target_params word =>
       match lexicon_get MicroX86Params.LEXICON word with
       | Some entry =>
           fold_left (fun t kv => dict_set t (fst kv) (snd kv)) entry target_params
       | None => target_params
       end)
    query_words [].

(** [abs(hash(str(g)) % 100 - hash(str(t)) % 100)] *)
Definition field_cost (g t : value) : Z :=
  Z.abs (py_hash (py_str g) mod 100 - py_hash (py_str t) mod 100).

(** The inner loop of [similarity_search].  The distance is a float that
    starts at 0.0 and only ever receives integers below 100, so its value is
    the integer computed here. *)
Definition distance (target_params gen_params : dict) : Z :=
  fold_left
    (fun d k =>
       if dict_mem gen_params k then
         match dict_get gen_params k, dict_get target_params k with
         | Some g, Some t => d + field_cost g t
         | _, _ => d
         end
       else d)
    (map fst target_params) 0.

(** The second loop of [similarity_search]: one (seed, distance) pair per
    candidate, in input order. *)
Definition score (target_params : dict) (seeds : list string)
    : M rng (list (string * Z)) :=
  mapM (fun s => gen_params <- seed_to_params s ;;
                 ret (s, distance target_params gen_params)) seeds.

Definition similarity_search
    (seeds query_words : list string) (max_results : Z)
    : M rng (list (string * Z)) :=
  let target_params := target_of query_words in
  results <- score target_params seeds ;;
  ret (slice_to (sort_by snd results) max_results).

(** *** The external tools, [verify_verilog] and [main] *)

(** [subprocess.run(argv, ...)] of a program, given what is on disk: the
    exit status, or nothing when the program cannot be started. *)
Variable run_command : list string -> world -> option Z.

(** [subprocess.run(cmd, shell=True, capture_output=True, text=True)]: the
    exit status, the captured standard output and the captured standard
    error.  The shell itself is taken to start. *)
Variable run_shell : string -> world -> Z * string * string.

(** [verify_verilog(verilog_file)].  [check=True] turns a non-zero status
    into [CalledProcessError], the one exception the function catches. *)
Definition verify_verilog (verilog_file : string) : world -> completion bool * world :=
  fun w =>
    match run_command (syntax_check_command verilog_file) w with
    | None => (RaisesFileNotFound, w)
    | Some status =>
        if status =? 0 then
          let (_, w1) := print "Syntax check passed." w in
          let '(_, out, err) := run_shell (synth_command verilog_file) w1 in
          let (_, w2) := print ("Synthesis: " ++ out) w1 in
          if contains "Error" err then (Returns false, w2)
          else
            let (_, w3) := print "Simulation stub: Would run Verilator here." w2 in
            (Returns true, w3)
        else
          let (_, w1) := print "Verification failed." w in
          (Returns false, w1)
    end.

(** A computation of [main]: over the generator and the outside world. *)
Definition P (A : Type) : Type := rng * world -> completion A * (rng * world).

Definition pret {A : Type} (a : A) : P A := fun s => (Returns a, s).

Definition pbind {A B : Type} (m : P A) (k : A -> P B) : P B :=
  fun s =>
    match m s with
    | (Returns a, s') => k a s'
    | (Raises e, s') => (Raises e, s')
    | (RaisesFileNotFound, s') => (RaisesFileNotFound, s')
    | (Exits status, s') => (Exits status, s')
    end.

Definition of_rng {A : Type} (m : M rng A) : P A :=
  fun s =>
    match m (fst s) with
    | (Ok a, g) => (Returns a, (g, snd s))
    | (Raise e, g) => (Raises e, (g, snd s))
    end.

Definition of_world {A : Type} (m : M world A) : P A :=
  fun s =>
    match m (snd s) with
    | (Ok a, w) => (Returns a, (fst s, w))
    | (Raise e, w) => (Raises e, (fst s, w))
    end.

Definition of_tool {A : Type} (m : world -> completion A * world) : P A :=
  fun s => let (c, w) := m (snd s) in (c, (fst s, w)).

(** [sys.exit(status)] *)
Definition sys_exit {A : Type} (status : Z) : P A := fun s => (Exits status, s).

Notation "x <~ m ;; k" := (pbind m (fun x => k))
  (at level 61, m at next level, right associativity).

(** [main()], with [sys.argv] as its argument. *)
Definition main (argv : list string) : P unit :=
  if len argv <? 2 then
    _ <~ of_world (print "Usage: python cpu_babel_generator.py <seed> [query_words...]") ;;
    sys_exit 1
  else
    seed_str <~ of_world (lift (index argv 1)) ;;
    let query_words := if 2 <? len argv then skipn 2 argv else [] in
    params <~ of_rng (seed_to_params seed_str) ;;
    _ <~ of_world (print ("Generated params: " ++ str_dict params)) ;;
    verilog_file <~ of_world (generate_top_level_verilog params ".") ;;
    _ <~ (match query_words with
          | [] => pret tt
          | _ :: _ =>
              matches <~ of_rng (similarity_search example_seeds query_words
                                   default_max_results) ;;
              of_world (print ("Search results: " ++ repr_matches matches))
          end) ;;
    verify <~ of_tool (verify_verilog verilog_file) ;;
    _ <~ (if verify then of_world (print "Core verified successfully.") else pret tt) ;;
    _ <~ of_world (write_file "assembler.py" (generate_assembler params)) ;;
    of_world (print "Assembler generated: assembler.py").


(** ** Facts: running the monad *)

Lemma bind_run {S A B : Type} (m : M S A) (k : A -> M S B) (s s' : S) (a : A) :
  m s = (Ok a, s') -> bind m k s = k a s'.
Proof. unfold bind. intros ->. reflexivity. Qed.

Lemma index_in_range {A : Type} (l : list A) (i : Z) :
  0 <= i < len l ->
  exists x, index l i = Ok x /\ nth_error l (Z.to_nat i) = Some x.
Proof.
  intros Hi. unfold index, len in *.
  destruct (i <? 0) eqn:Hneg; [apply Z.ltb_lt in Hneg; lia|].
  replace ((0 <=? i) && (i <? Z.of_nat (List.length l))) with true
    by (symmetry; apply andb_true_iff; split; [apply Z.leb_le | apply Z.ltb_lt]; lia).
  destruct (nth_error l (Z.to_nat i)) as [x|] eqn:Hnth.
  - exists x. split; reflexivity.
  - apply nth_error_None in Hnth. lia.
Qed.

Lemma set_index_in_range {A : Type} (l : list A) (i : Z) (x : A) :
  0 <= i < len l -> set_index l i x = Ok (set_nth l (Z.to_nat i) x).
Proof.
  intros Hi. unfold set_index, len in *.
  destruct (i <? 0) eqn:Hneg; [apply Z.ltb_lt in Hneg; lia|].
  replace ((0 <=? i) && (i <? Z.of_nat (List.length l))) with true
    by (symmetry; apply andb_true_iff; split; [apply Z.leb_le | apply Z.ltb_lt]; lia).
  reflexivity.
Qed.

Lemma set_nth_length {A : Type} (l : list A) (i : nat) (x : A) :
  List.length (set_nth l i x) = List.length l.
Proof.
  revert i. induction l as [|y l IH]; intros [|i]; simpl; auto.
Qed.

Lemma firstn_snoc_nth {A : Type} (l : list A) (m : nat) (y : A) :
  nth_error l m = Some y -> firstn (S m) l = (firstn m l ++ [y])%list.
Proof.
  revert m. induction l as [|a l IH]; intros [|m] H; simpl in *; try discriminate.
  - injection H as ->. reflexivity.
  - f_equal. apply IH. exact H.
Qed.

(** One step of the pool: taking item [j] out and moving item [m], the last
    one not selected, into its place leaves the other items not selected. *)
Lemma pool_step_permutation {A : Type} (l : list A) (m j : nat) (x y : A) :
  (j <= m)%nat -> nth_error l j = Some x -> nth_error l m = Some y ->
  Permutation (x :: firstn m (set_nth l j y)) (firstn (S m) l).
Proof.
  revert m j. induction l as [|a l IH]; intros m j Hjm Hx Hy.
  - destruct j; discriminate.
  - destruct j as [|j], m as [|m]; cbn [nth_error set_nth] in *.
    + injection Hx as ->. apply Permutation_refl.
    + injection Hx as ->.
      change (Permutation (x :: y :: firstn m l) (x :: firstn (S m) l)).
      rewrite (firstn_snoc_nth l m y Hy).
      apply perm_skip. apply Permutation_cons_append.
    + lia.
    + change (Permutation (x :: a :: firstn m (set_nth l j y)) (a :: firstn (S m) l)).
      eapply perm_trans; [apply perm_swap|].
      apply perm_skip. apply IH; [lia | assumption | assumption].
Qed.

(** ** Facts: the [random] module under the contract of [_randbelow] *)

Lemma randbelow_run (n : Z) (g : rng) :
  0 < n ->
  exists r g', _randbelow n g = (Ok r, g') /\ 0 <= r < n.
Proof.
  intros Hn. unfold _randbelow.
  pose proof (randbelow_range n g Hn) as Hr.
  destruct (randbelow n g) as [r g']. simpl in Hr.
  exists r, g'. split; [reflexivity | exact Hr].
Qed.

Lemma choice_ok {A : Type} (seq : list A) (g : rng) :
  seq <> [] ->
  exists x g', choice seq g = (Ok x, g') /\ In x seq.
Proof.
  intros Hne. unfold choice.
  assert (Hlen : 0 < len seq).
  { unfold len. destruct seq; [contradiction | simpl; lia]. }
  destruct (len seq =? 0) eqn:E; [apply Z.eqb_eq in E; lia|].
  destruct (randbelow_run (len seq) g Hlen) as (r & g' & Hrun & Hr).
  destruct (index_in_range seq r Hr) as (x & Hix & Hnth).
  exists x, g'. split.
  - rewrite (bind_run _ _ _ _ _ Hrun). unfold lift. rewrite Hix. reflexivity.
  - eapply nth_error_In. exact Hnth.
Qed.

Lemma randint_ok (a b : Z) (g : rng) :
  a <= b ->
  exists r g', randint a b g = (Ok r, g') /\ a <= r <= b.
Proof.
  intros Hab. unfold randint, randrange.
  destruct (0 <? b + 1 - a) eqn:E; [|apply Z.ltb_ge in E; lia].
  destruct (randbelow_run (b + 1 - a) g ltac:(lia)) as (r & g' & Hrun & Hr).
  exists (a + r), g'. split.
  - rewrite (bind_run _ _ _ _ _ Hrun). reflexivity.
  - lia.
Qed.

(** The loop of [sample], from iteration [i0] on, for [cnt] iterations: the
    items selected so far together with the items not selected yet are the
    population. *)
Lemma sample_loop_ok {A : Type} (population : list A) (n : nat) :
  forall (cnt i0 : nat) (result pool : list A) (g : rng),
    List.length pool = n -> (i0 + cnt <= n)%nat ->
    Permutation (result ++ firstn (n - i0) pool) population ->
    exists result' pool' g',
      foldM (sample_step (Z.of_nat n)) (map Z.of_nat (seq i0 cnt)) (result, pool) g
        = (Ok (result', pool'), g')
      /\ List.length pool' = n
      /\ Permutation (result' ++ firstn (n - i0 - cnt) pool') population
      /\ List.length result' = (List.length result + cnt)%nat.
Proof.
  induction cnt as [|cnt IH]; intros i0 result pool g Hlen Hle Hperm.
  - exists result, pool, g. simpl. repeat split; try assumption; try lia.
    replace (n - i0 - 0)%nat with (n - i0)%nat by lia. assumption.
  - cbn [seq map foldM].
    destruct (randbelow_run (Z.of_nat n - Z.of_nat i0) g ltac:(lia))
      as (j & g1 & Hrun & Hj).
    assert (Hjr : 0 <= j < len pool) by (unfold len; lia).
    destruct (index_in_range pool j Hjr) as (x & Hix & Hx).
    assert (Hmr : 0 <= Z.of_nat n - Z.of_nat i0 - 1 < len pool) by (unfold len; lia).
    destruct (index_in_range pool _ Hmr) as (y & Hiy & Hy).
    replace (Z.to_nat (Z.of_nat n - Z.of_nat i0 - 1)) with (n - i0 - 1)%nat in Hy by lia.
    pose proof (set_index_in_range pool j y Hjr) as Hset.
    assert (Hstep : sample_step (Z.of_nat n) (result, pool) (Z.of_nat i0) g
                    = (Ok ((result ++ [x])%list, set_nth pool (Z.to_nat j) y), g1)).
    { unfold sample_step. rewrite (bind_run _ _ _ _ _ Hrun).
      unfold lift, bind, ret. rewrite Hix, Hiy, Hset. reflexivity. }
    rewrite (bind_run _ _ _ _ _ Hstep).
    destruct (IH (S i0) (result ++ [x])%list (set_nth pool (Z.to_nat j) y) g1)
      as (result' & pool' & g' & Hfold & Hlen' & Hperm' & Hres').
    + rewrite set_nth_length. assumption.
    + lia.
    + rewrite <- app_assoc. simpl.
      eapply perm_trans; [|exact Hperm].
      apply Permutation_app_head.
      replace (n - i0)%nat with (S (n - i0 - 1)) by lia.
      replace (n - S i0)%nat with (n - i0 - 1)%nat by lia.
      apply pool_step_permutation; [lia | assumption | assumption].
    + exists result', pool', g'. repeat split; try assumption.
      * replace (n - i0 - S cnt)%nat with (n - S i0 - cnt)%nat by lia. assumption.
      * rewrite Hres'. rewrite length_app. simpl. lia.
Qed.

Lemma sample_ok {A : Type} (population : list A) (k : Z) (g : rng) :
  NoDup population -> 0 <= k <= len population ->
  exists l g',
    sample population k g = (Ok l, g')
    /\ NoDup l /\ incl l population /\ len l = k.
Proof.
  intros Hnd Hk. unfold sample.
  replace ((0 <=? k) && (k <=? len population)) with true
    by (symmetry; apply andb_true_iff; split; apply Z.leb_le; lia).
  cbn [negb].
  destruct (sample_loop_ok population (List.length population) (Z.to_nat k) 0 [] population g)
    as (l & pool' & g' & Hfold & _ & Hperm & Hlen).
  - reflexivity.
  - unfold len in Hk. lia.
  - simpl. rewrite Nat.sub_0_r, firstn_all. apply Permutation_refl.
  - exists l, g'. unfold range, len in *.
    rewrite (bind_run _ _ _ _ _ Hfold). split; [reflexivity|].
    assert (Hnd' : NoDup (l ++ firstn (List.length population - 0 - Z.to_nat k) pool')%list).
    { eapply Permutation_NoDup; [apply Permutation_sym; exact Hperm | exact Hnd]. }
    repeat split.
    + eapply NoDup_app_remove_r. exact Hnd'.
    + intros x Hx. eapply Permutation_in; [exact Hperm|]. apply in_or_app. left. exact Hx.
    + simpl in Hlen. lia.
Qed.

(** ** Facts: the seed sampler *)

(** [random.seed] overwrites the generator: what [seed_to_params] returns, and
    the state it leaves, do not depend on the state it finds. *)
Lemma seed_to_params_reseeds (s : string) (g1 g2 : rng) :
  seed_to_params s g1 = seed_to_params s g2.
Proof. reflexivity. Qed.

Lemma addressing_modes_nodup : NoDup MicroX86Params.ADDRESSING_MODES.
Proof.
  unfold MicroX86Params.ADDRESSING_MODES.
  repeat constructor; simpl; intuition discriminate.
Qed.

Lemma seed_to_params_valid (s : string) (g : rng) :
  exists p g', seed_to_params s g = (Ok p, g') /\ valid_point p.
Proof.
  unfold seed_to_params.
  set (a := int_of_hex (Hashlib.hexdigest (encode s))).
  rewrite (bind_run (seed a) _ g (rng_seed a) tt eq_refl).
  destruct (choice_ok MicroX86Params.NUM_REGS_OPTIONS (rng_seed a) ltac:(discriminate))
    as (num_regs & g1 & H1 & Hin1).
  rewrite (bind_run _ _ _ _ _ H1).
  destruct (randint_ok 1 (len MicroX86Params.ADDRESSING_MODES) g1 ltac:(cbv; discriminate))
    as (k & g2 & H2 & Hk).
  rewrite (bind_run _ _ _ _ _ H2).
  destruct (sample_ok MicroX86Params.ADDRESSING_MODES k g2 addressing_modes_nodup ltac:(lia))
    as (modes & g3 & H3 & Hnd & Hincl & Hlen).
  rewrite (bind_run _ _ _ _ _ H3).
  destruct (choice_ok MicroX86Params.DECODER_TYPES g3 ltac:(discriminate))
    as (decoder_type & g4 & H4 & Hin4).
  rewrite (bind_run _ _ _ _ _ H4).
  destruct (choice_ok MicroX86Params.PIPELINE_DEPTHS g4 ltac:(discriminate))
    as (pipeline_depth & g5 & H5 & Hin5).
  rewrite (bind_run _ _ _ _ _ H5).
  destruct (choice_ok MicroX86Params.EXEC_UNITS g5 ltac:(discriminate))
    as (exec_units & g6 & H6 & Hin6).
  rewrite (bind_run _ _ _ _ _ H6).
  destruct (choice_ok MicroX86Params.MEMORY_TYPES g6 ltac:(discriminate))
    as (memory_type & g7 & H7 & Hin7).
  rewrite (bind_run _ _ _ _ _ H7).
  eexists. exists g7. split; [reflexivity|].
  exists num_regs, modes, decoder_type, pipeline_depth, exec_units, memory_type.
  repeat split; try assumption.
  intros ->. unfold len in Hlen. simpl in Hlen. lia.
Qed.

(** ** Facts: seeds in full *)

Lemma code_range (c : ascii) : 0 <= code c < 256.
Proof. unfold code. pose proof (N_ascii_bounded c). lia. Qed.

(** On the strs that a [string] holds, [encode_points] is [encode]. *)
Lemma encode_points_string (s : string) : encode_points (points s) = Ok (encode s).
Proof.
  unfold encode_points, points.
  assert (Hsur : existsb is_surrogate (map code (list_ascii_of_string s)) = false).
  { induction s as [|c s IH]; [reflexivity|].
    cbn [list_ascii_of_string map existsb]. rewrite IH.
    pose proof (code_range c) as Hc. unfold is_surrogate.
    destruct (55296 <=? code c) eqn:E; [apply Z.leb_le in E; lia|reflexivity]. }
  rewrite Hsur. f_equal.
  induction s as [|c s IH]; [reflexivity|].
  cbn [list_ascii_of_string map flat_map encode existsb] in *.
  apply orb_false_iff in Hsur. destruct Hsur as [_ Hsur].
  rewrite (IH Hsur). pose proof (code_range c) as Hc. unfold utf8.
  destruct (code c <? 128); [reflexivity|].
  destruct (code c <? 2048) eqn:E; [reflexivity|apply Z.ltb_ge in E; lia].
Qed.

Lemma seed_to_params_points_string (s : string) (g : rng) :
  seed_to_params_points (points s) g = seed_to_params s g.
Proof.
  unfold seed_to_params_points, seed_to_params.
  rewrite encode_points_string. reflexivity.
Qed.

(** A seed that holds a surrogate: [seed.encode()] raises, and the generator
    stays as it was. *)
Lemma seed_to_params_points_surrogate (seed_points : unicode) (g : rng) :
  existsb is_surrogate seed_points = true ->
  seed_to_params_points seed_points g = (Raise UnicodeEncodeError, g).
Proof.
  intros Hsur. unfold seed_to_params_points, encode_points.
  rewrite Hsur. reflexivity.
Qed.

Lemma seed_to_params_points_valid (seed_points : unicode) (g : rng) :
  existsb is_surrogate seed_points = false ->
  exists p g', seed_to_params_points seed_points g = (Ok p, g') /\ valid_point p.
Proof.
  intros Hsur. unfold seed_to_params_points, encode_points. rewrite Hsur.
  set (data := flat_map utf8 seed_points).
  rewrite (bind_run (lift (Ok data)) _ g g data eq_refl).
  set (a := int_of_hex (Hashlib.hexdigest data)).
  rewrite (bind_run (seed a) _ g (rng_seed a) tt eq_refl).
  destruct (choice_ok MicroX86Params.NUM_REGS_OPTIONS (rng_seed a) ltac:(discriminate))
    as (num_regs & g1 & H1 & Hin1).
  rewrite (bind_run _ _ _ _ _ H1).
  destruct (randint_ok 1 (len MicroX86Params.ADDRESSING_MODES) g1 ltac:(cbv; discriminate))
    as (k & g2 & H2 & Hk).
  rewrite (bind_run _ _ _ _ _ H2).
  destruct (sample_ok MicroX86Params.ADDRESSING_MODES k g2 addressing_modes_nodup ltac:(lia))
    as (modes & g3 & H3 & Hnd & Hincl & Hlen).
  rewrite (bind_run _ _ _ _ _ H3).
  destruct (choice_ok MicroX86Params.DECODER_TYPES g3 ltac:(discriminate))
    as (decoder_type & g4 & H4 & Hin4).
  rewrite (bind_run _ _ _ _ _ H4).
  destruct (choice_ok MicroX86Params.PIPELINE_DEPTHS g4 ltac:(discriminate))
    as (pipeline_depth & g5 & H5 & Hin5).
  rewrite (bind_run _ _ _ _ _ H5).
  destruct (choice_ok MicroX86Params.EXEC_UNITS g5 ltac:(discriminate))
    as (exec_units & g6 & H6 & Hin6).
  rewrite (bind_run _ _ _ _ _ H6).
  destruct (choice_ok MicroX86Params.MEMORY_TYPES g6 ltac:(discriminate))
    as (memory_type & g7 & H7 & Hin7).
  rewrite (bind_run _ _ _ _ _ H7).
  eexists. exists g7. split; [reflexivity|].
  exists num_regs, modes, decoder_type, pipeline_depth, exec_units, memory_type.
  repeat split; try assumption.
  intros ->. unfold len in Hlen. simpl in Hlen. lia.
Qed.

(** ** Facts: the stable sort *)

Section SortBy.

Context {A : Type} (key : A -> Z).

Lemma insert_by_permutation (x : A) (l : list A) :
  Permutation (insert_by key x l) (x :: l).
Proof.
  induction l as [|y l IH]; simpl.
  - apply Permutation_refl.
  - destruct (key x <=? key y).
    + apply Permutation_refl.
    + eapply perm_trans; [apply perm_skip; exact IH | apply perm_swap].
Qed.

Lemma sort_by_permutation (l : list A) : Permutation (sort_by key l) l.
Proof.
  induction l as [|x l IH]; simpl.
  - apply perm_nil.
  - eapply perm_trans; [apply insert_by_permutation | apply perm_skip; exact IH].
Qed.







End SortBy.

(** ** Facts: dictionaries *)

Lemma dict_get_in_nodup (d : dict) (k : string) (v : value) :
  NoDup (map fst d) -> In (k, v) d -> dict_get d k = Some v.
Proof.
  induction d as [|[k' v'] d IH]; intros Hnd Hin; [contradiction|].
  simpl in *. inversion Hnd as [|? ? Hnotin Hnd']; subst.
  destruct Hin as [Heq | Hin].
  - injection Heq as -> ->. rewrite String.eqb_refl. reflexivity.
  - destruct (String.eqb k k') eqn:E.
    + apply String.eqb_eq in E. subst k'. exfalso. apply Hnotin.
      change k with (fst (k, v)). apply in_map. exact Hin.
    + apply IH; assumption.
Qed.

Lemma dict_set_keys (d : dict) (k : string) (v : value) :
  map fst (dict_set d k v)
  = if dict_mem d k then map fst d else (map fst d ++ [k])%list.
Proof.
  unfold dict_mem. induction d as [|[k' v'] d IH]; [reflexivity|].
  simpl. destruct (String.eqb k k') eqn:E; [reflexivity|].
  simpl. rewrite IH. destruct (dict_get d k); reflexivity.
Qed.

Lemma dict_get_none_not_key (d : dict) (k : string) :
  dict_get d k = None -> ~ In k (map fst d).
Proof.
  induction d as [|[k' v'] d IH]; intros Hget Hin; [contradiction|].
  simpl in *. destruct (String.eqb k k') eqn:E; [discriminate|].
  apply String.eqb_neq in E. destruct Hin as [Heq | Hin]; [congruence|].
  exact (IH Hget Hin).
Qed.

Lemma dict_set_nodup (d : dict) (k : string) (v : value) :
  NoDup (map fst d) -> NoDup (map fst (dict_set d k v)).
Proof.
  intros Hnd. rewrite dict_set_keys. unfold dict_mem.
  destruct (dict_get d k) eqn:E; [exact Hnd|].
  apply NoDup_app; [exact Hnd | repeat constructor; intros [] |].
  intros x Hx [<- | []]. exact (dict_get_none_not_key d k E Hx).
Qed.

Lemma target_of_nodup (query_words : list string) :
  NoDup (map fst (target_of query_words)).
Proof.
  unfold target_of.
  assert (Hgen : forall (ws : list string) (acc : dict),
             NoDup (map fst acc) ->
             NoDup (map fst
               (fold_left
                  (fun target_params word =>
                     match lexicon_get MicroX86Params.LEXICON word with
                     | Some entry =>
                         fold_left (fun t kv => dict_set t (fst kv) (snd kv))
                           entry target_params
                     | None => target_params
                     end) ws acc))).
  { induction ws as [|w ws IH]; intros acc Hacc; [exact Hacc|].
    cbn [fold_left]. apply IH.
    destruct (lexicon_get MicroX86Params.LEXICON w) as [entry|]; [|exact Hacc].
    revert acc Hacc. induction entry as [|kv entry IHe]; intros acc Hacc; [exact Hacc|].
    cbn [fold_left]. apply IHe. apply dict_set_nodup. exact Hacc. }
  apply Hgen. constructor.
Qed.


(** ** Facts: the distance *)

Lemma field_cost_range (g t : value) : 0 <= field_cost g t <= 99.
Proof.
  unfold field_cost.
  pose proof (Z.mod_pos_bound (py_hash (py_str g)) 100 ltac:(lia)).
  pose proof (Z.mod_pos_bound (py_hash (py_str t)) 100 ltac:(lia)).
  lia.
Qed.

Lemma field_cost_same (g : value) : field_cost g g = 0.
Proof. unfold field_cost. rewrite Z.sub_diag. reflexivity. Qed.

Lemma distance_fold (target_params gen_params : dict) (keys : list string) (acc : Z) :
  fold_left
    (fun d k =>
       if dict_mem gen_params k then
         match dict_get gen_params k, dict_get target_params k with
         | Some g, Some t => d + field_cost g t
         | _, _ => d
         end
       else d) keys acc
  = acc + sum_Z (map (fun k =>
                        match dict_get gen_params k, dict_get target_params k with
                        | Some g, Some t => field_cost g t
                        | _, _ => 0
                        end) keys).
Proof.
  revert acc. induction keys as [|k keys IH]; intros acc; cbn [fold_left map sum_Z fold_right].
  - lia.
  - rewrite IH. unfold dict_mem. fold (sum_Z (map (fun k0 =>
        match dict_get gen_params k0, dict_get target_params k0 with
        | Some g, Some t => field_cost g t
        | _, _ => 0
        end) keys)).
    destruct (dict_get gen_params k), (dict_get target_params k); lia.
Qed.

Lemma distance_sum (target_params gen_params : dict) :
  NoDup (map fst target_params) ->
  distance target_params gen_params
  = sum_Z (map (fun kv =>
                  match dict_get gen_params (fst kv) with
                  | Some g => field_cost g (snd kv)
                  | None => 0
                  end) target_params).
Proof.
  intros Hnd. unfold distance. rewrite distance_fold, Z.add_0_l.
  rewrite map_map. f_equal. apply map_ext_in. intros [k t] Hin. cbn [fst snd].
  rewrite (dict_get_in_nodup target_params k t Hnd Hin).
  destruct (dict_get gen_params k); reflexivity.
Qed.


(** ** Facts: the similarity search *)

(** The second loop returns one pair per candidate, in input order: the seed,
    and the distance of the point sampled from it. *)
Lemma score_ok (target_params : dict) (seeds : list string) (g : rng) :
  exists results g',
    score target_params seeds g = (Ok results, g')
    /\ Forall2
         (fun s r =>
            fst r = s
            /\ exists p g0 g1,
                seed_to_params s g0 = (Ok p, g1) /\ valid_point p
                /\ snd r = distance target_params p)
         seeds results.
Proof.
  revert g. induction seeds as [|s seeds IH]; intros g.
  - exists [], g. split; [reflexivity | constructor].
  - destruct (seed_to_params_valid s g) as (p & g1 & Hp & Hvalid).
    destruct (IH g1) as (results & g' & Hrest & Hall).
    exists ((s, distance target_params p) :: results), g'. split.
    + unfold score in *. cbn [mapM].
      rewrite (bind_run _ _ g g1 (s, distance target_params p)).
      * rewrite (bind_run _ _ _ _ _ Hrest). reflexivity.
      * rewrite (bind_run _ _ _ _ _ Hp). reflexivity.
    + constructor; [|exact Hall].
      split; [reflexivity|]. exists p, g, g1. auto.
Qed.


Lemma slice_to_nonneg {A : Type} (l : list A) (stop : Z) :
  0 <= stop -> slice_to l stop = firstn (Z.to_nat stop) l.
Proof.
  intros H. unfold slice_to.
  destruct (stop <? 0) eqn:E; [apply Z.ltb_lt in E; lia | reflexivity].
Qed.


Lemma similarity_search_run (seeds query_words : list string) (max_results : Z)
    (g g' : rng) (results : list (string * Z)) :
  score (target_of query_words) seeds g = (Ok results, g') ->
  similarity_search seeds query_words max_results g
  = (Ok (slice_to (sort_by snd results) max_results), g').
Proof.
  intros H. unfold similarity_search. rewrite (bind_run _ _ _ _ _ H). reflexivity.
Qed.

(** ** The claims on the seed sampler and the similarity search *)

(** C1. Determinism of the seed sampler: for every seed string, a first call
    of [seed_to_params] and a second call made after it (from the generator
    state the first call left) both return a design point, and the two
    design points are the same dict, so every field of the first equals the
    corresponding field of the second.  The same design point comes out from
    any state of the generator, since the call reseeds it. *)
Theorem seed_to_params_deterministic (s : string) (g : rng) :
  exists p1 p2 g1 g2,
    seed_to_params s g = (Ok p1, g1)
    /\ seed_to_params s g1 = (Ok p2, g2)
    /\ p1 = p2
    /\ (forall k, dict_get p1 k = dict_get p2 k)
    /\ (forall g0, fst (seed_to_params s g0) = Ok p1).
Proof.
  destruct (seed_to_params_valid s g) as (p & g1 & Hrun & _).
  exists p, p, g1, g1. repeat split.
  - exact Hrun.
  - rewrite (seed_to_params_reseeds s g1 g). exact Hrun.
  - intros g0. rewrite (seed_to_params_reseeds s g0 g), Hrun. reflexivity.
Qed.

(** C2, as amended.  Validity of the seed sampler: for every seed str that
    UTF-8 can encode, that is, one that holds no surrogate, the empty one
    included, [seed_to_params] raises nothing and returns a design point whose
    num_regs is 4, 6 or 8, whose decoder_type is hardwired or microcoded,
    whose pipeline_depth is 2, 3 or 4, whose exec_units is single_alu or
    separate_agu_alu, whose memory_type is simple or cached, and whose
    addressing_modes is a non-empty list of distinct elements of 1, 2, 3. *)
Theorem seed_to_params_in_catalog (seed_points : unicode) (g : rng) :
  existsb is_surrogate seed_points = false ->
  exists p g' num_regs modes decoder_type pipeline_depth exec_units memory_type,
    seed_to_params_points seed_points g = (Ok p, g')
    /\ dict_get p "num_regs" = Some num_regs
    /\ In num_regs [VInt 4; VInt 6; VInt 8]
    /\ dict_get p "decoder_type" = Some decoder_type
    /\ In decoder_type [VStr "hardwired"; VStr "microcoded"]
    /\ dict_get p "pipeline_depth" = Some pipeline_depth
    /\ In pipeline_depth [VInt 2; VInt 3; VInt 4]
    /\ dict_get p "exec_units" = Some exec_units
    /\ In exec_units [VStr "single_alu"; VStr "separate_agu_alu"]
    /\ dict_get p "memory_type" = Some memory_type
    /\ In memory_type [VStr "simple"; VStr "cached"]
    /\ dict_get p "addressing_modes" = Some (VList modes)
    /\ modes <> [] /\ NoDup modes /\ incl modes [VInt 1; VInt 2; VInt 3].
Proof.
  intros Hsur.
  destruct (seed_to_params_points_valid seed_points g Hsur) as (p & g' & Hrun & Hvalid).
  destruct Hvalid as (nr & am & dt & pd & eu & mt & -> & Hnr & (Hne & Hnd & Hincl)
                      & Hdt & Hpd & Heu & Hmt).
  exists (design_point nr am dt pd eu mt), g', nr, am, dt, pd, eu, mt.
  repeat split; try assumption; try reflexivity.
Qed.

(** C4, as amended.  In [similarity_search] the pair of a candidate holds the
    distance of its design point to the target, and for a target all of whose
    fields are fields of the design point that distance is the sum, over the
    fields of the target, of
    [abs(hash(str(candidate value)) % 100 - hash(str(target value)) % 100)]:
    a cost that is 0 when the two values are equal and that otherwise lies
    between 0 and 99, as the two hashes have it. *)
Theorem distance_sums_hash_differences
    (seeds query_words : list string) (g : rng) :
  let target_params := target_of query_words in
  exists results g',
    score target_params seeds g = (Ok results, g')
    /\ Forall2
         (fun s r =>
            fst r = s
            /\ exists p g0 g1,
                seed_to_params s g0 = (Ok p, g1) /\ valid_point p
                /\ snd r = distance target_params p)
         seeds results
    /\ (forall p,
          (forall k, In k (map fst target_params) -> dict_mem p k = true) ->
          distance target_params p
          = sum_Z (map (fun kv =>
                          match dict_get p (fst kv) with
                          | Some v => field_cost v (snd kv)
                          | None => 0
                          end) target_params))
    /\ (forall v t, 0 <= field_cost v t <= 99)
    /\ (forall v, field_cost v v = 0).
Proof.
  intros target_params.
  destruct (score_ok target_params seeds g) as (results & g' & Hrun & Hall).
  exists results, g'. repeat split; try assumption.
  - intros p _. apply distance_sum. apply target_of_nodup.
  - apply field_cost_range.
  - apply field_cost_range.
  - apply field_cost_same.
Qed.



(** ** Facts: the module composer *)



Lemma dict_item_some (d : dict) (k : string) (v : value) :
  dict_get d k = Some v -> dict_item d k = Ok v.
Proof. unfold dict_item. intros ->. reflexivity. Qed.

(** The composer checks nothing but the presence of the five fields it reads
    and the type of [num_regs]. *)
Lemma top_template_run (params : dict) (z : Z) (pd dt eu mt : value) :
  dict_get params "num_regs" = Some (VInt z) ->
  dict_get params "pipeline_depth" = Some pd ->
  dict_get params "decoder_type" = Some dt ->
  dict_get params "exec_units" = Some eu ->
  dict_get params "memory_type" = Some mt ->
  top_template params
  = Ok (text_of_lines
          (top_lines (VInt z) pd dt mt (slice_to MicroX86Params.REG_NAMES z))).
Proof.
  intros Hnr Hpd Hdt Heu Hmt.
  unfold top_template, verilog_parts, generate_register_file_verilog,
    generate_decoder_verilog, generate_alu_verilog, generate_memory_interface_verilog.
  rewrite (dict_item_some _ _ _ Hnr), (dict_item_some _ _ _ Hpd),
    (dict_item_some _ _ _ Hdt), (dict_item_some _ _ _ Heu), (dict_item_some _ _ _ Hmt).
  cbn [result_bind reg_names_upto].
  destruct (value_eqb dt (VStr "hardwired")), (value_eqb eu (VStr "single_alu")),
    (value_eqb mt (VStr "simple")); reflexivity.
Qed.

Lemma generate_top_level_verilog_run
    (params : dict) (output_dir text : string) (w : world) :
  top_template params = Ok text ->
  let filename :=
    path_join output_dir ("micro_x86_core_" ++ artifact_id params ++ ".v") in
  generate_top_level_verilog params output_dir w
  = (Ok filename,
     mk_world ((filename, text) :: files w)
       (List.app (stdout w) ["Generated Verilog: " ++ filename])).
Proof.
  intros Htop. unfold generate_top_level_verilog, lift, bind. rewrite Htop.
  reflexivity.
Qed.

(** What the composer generates for a valid design point, and the module
    names the texts declare and instantiate. *)
Lemma wrapper_of_valid_point (p : dict) :
  valid_point p ->
  exists dt eu mt text rf_text decoder_text alu_text memory_text,
    dict_get p "decoder_type" = Some (VStr dt)
    /\ dict_get p "exec_units" = Some (VStr eu)
    /\ dict_get p "memory_type" = Some (VStr mt)
    /\ top_template p = Ok text
    /\ verilog_parts p = Ok [rf_text; decoder_text; alu_text; memory_text]
    /\ generate_decoder_verilog p = Ok decoder_text
    /\ generate_alu_verilog p = Ok alu_text
    /\ generate_memory_interface_verilog p = Ok memory_text
    /\ instantiated_modules text
       = ["reg_file"; "decoder_" ++ dt; "alu"; "memory_" ++ mt]
    /\ declared_modules text = ["micro_x86_core"]
    /\ declared_modules decoder_text = ["decoder_" ++ dt]
    /\ declared_modules memory_text = ["memory_" ++ mt]
    /\ declared_modules alu_text
       = [if String.eqb eu "single_alu" then "alu" else "agu_alu_separate"].
Proof.
  intros (nr & am & dt & pd & eu & mt & -> & Hnr & _ & Hdt & Hpd & Heu & Hmt).
  simpl in Hnr, Hdt, Hpd, Heu, Hmt.
  repeat match goal with H : _ \/ _ |- _ => destruct H as [H | H] end;
    try contradiction; subst;
    (do 8 eexists;
     split; [reflexivity|]; split; [reflexivity|]; split; [reflexivity|];
     split; [eapply top_template_run; reflexivity|];
     split; [reflexivity|]; split; [reflexivity|]; split; [reflexivity|];
     split; [reflexivity|];
     repeat split; vm_compute; reflexivity).
Qed.

Lemma verilog_parts_run (params : dict) (nr dt eu mt : value) :
  dict_get params "num_regs" = Some nr ->
  dict_get params "decoder_type" = Some dt ->
  dict_get params "exec_units" = Some eu ->
  dict_get params "memory_type" = Some mt ->
  exists rf_text decoder_text alu_text memory_text,
    verilog_parts params = Ok [rf_text; decoder_text; alu_text; memory_text]
    /\ generate_alu_verilog params = Ok alu_text.
Proof.
  intros Hnr Hdt Heu Hmt.
  unfold verilog_parts, generate_register_file_verilog, generate_decoder_verilog,
    generate_alu_verilog, generate_memory_interface_verilog.
  rewrite (dict_item_some _ _ _ Hnr), (dict_item_some _ _ _ Hdt),
    (dict_item_some _ _ _ Heu), (dict_item_some _ _ _ Hmt).
  cbn [result_bind].
  destruct (value_eqb dt (VStr "hardwired")), (value_eqb eu (VStr "single_alu")),
    (value_eqb mt (VStr "simple")); do 4 eexists; split; reflexivity.
Qed.

Lemma written_file (params : dict) (output_dir text : string) (w : world) :
  top_template params = Ok text ->
  exists name w',
    generate_top_level_verilog params output_dir w = (Ok name, w')
    /\ name = path_join output_dir ("micro_x86_core_" ++ artifact_id params ++ ".v")
    /\ file_get (files w') name = Some text.
Proof.
  intros Htop. eexists. eexists. split; [|split].
  - apply (generate_top_level_verilog_run params output_dir text w Htop).
  - reflexivity.
  - cbn [files file_get]. rewrite String.eqb_refl. reflexivity.
Qed.

(** ** The claims on the module composer *)


(** C5. Composer consistency: for every valid design point, the wrapper the
    composer writes instantiates, next to the register file and the execution
    unit, exactly the decoder module [decoder_<decoder_type>] and the memory
    module [memory_<memory_type>], and these are the module names that the
    decoder generator and the memory generator declare for the same point. *)
Theorem wrapper_references_selected_variants
    (p : dict) (output_dir : string) (w : world) :
  valid_point p ->
  exists dt mt text decoder_text memory_text name w',
    dict_get p "decoder_type" = Some (VStr dt)
    /\ dict_get p "memory_type" = Some (VStr mt)
    /\ generate_top_level_verilog p output_dir w = (Ok name, w')
    /\ file_get (files w') name = Some text
    /\ instantiated_modules text
       = ["reg_file"; "decoder_" ++ dt; "alu"; "memory_" ++ mt]
    /\ generate_decoder_verilog p = Ok decoder_text
    /\ declared_modules decoder_text = ["decoder_" ++ dt]
    /\ generate_memory_interface_verilog p = Ok memory_text
    /\ declared_modules memory_text = ["memory_" ++ mt].
Proof.
  intros Hvalid.
  destruct (wrapper_of_valid_point p Hvalid)
    as (dt & eu & mt & text & rf & dtext & atext & mtext
        & Hdt & _ & Hmt & Htop & _ & Hdec & _ & Hmem & Hinst & _ & Hdd & Hdm & _).
  destruct (written_file p output_dir text w Htop) as (name & w' & Hrun & _ & Hfile).
  exists dt, mt, text, dtext, mtext, name, w'.
  repeat split; assumption.
Qed.

(** X18.  For every design point the composer renders, the
    wrapper instantiates the execution unit by the fixed line
    [alu alu_inst (], whatever the field [exec_units], which the wrapper's
    text does not depend on; when [exec_units] is separate_agu_alu, the
    execution-unit module that the composer generates for the point (the
    third of its [verilog_parts]) is named [agu_alu_separate], so the name
    instantiated in the wrapper differs from the name of the generated
    module. *)
Theorem wrapper_instantiates_alu_by_fixed_name
    (params : dict) (z : Z) (pd dt eu mt : value) :
  dict_get params "num_regs" = Some (VInt z) ->
  dict_get params "pipeline_depth" = Some pd ->
  dict_get params "decoder_type" = Some dt ->
  dict_get params "exec_units" = Some eu ->
  dict_get params "memory_type" = Some mt ->
  exists text parts alu_text,
    top_template params = Ok text
    /\ text = text_of_lines
                (top_lines (VInt z) pd dt mt (slice_to MicroX86Params.REG_NAMES z))
    /\ nth_error (top_lines (VInt z) pd dt mt (slice_to MicroX86Params.REG_NAMES z)) 44
       = Some "    alu alu_inst ("
    /\ (valid_point params -> nth_error (instantiated_modules text) 2 = Some "alu")
    /\ verilog_parts params = Ok parts
    /\ nth_error parts 2 = Some alu_text
    /\ generate_alu_verilog params = Ok alu_text
    /\ (eu = VStr "separate_agu_alu" ->
        declared_modules alu_text = ["agu_alu_separate"]
        /\ ~ In "alu" (declared_modules alu_text))
    /\ "alu" <> "agu_alu_separate".
Proof.
  intros Hnr Hpd Hdt Heu Hmt.
  pose proof (top_template_run params z pd dt eu mt Hnr Hpd Hdt Heu Hmt) as Htop.
  destruct (verilog_parts_run params (VInt z) dt eu mt Hnr Hdt Heu Hmt)
    as (rf & dtext & atext & mtext & Hparts & Halu).
  eexists. exists [rf; dtext; atext; mtext], atext.
  split; [exact Htop|]. split; [reflexivity|]. split; [reflexivity|].
  split.
  { intros Hvalid.
    destruct (wrapper_of_valid_point params Hvalid)
      as (dt' & eu' & mt' & text' & rf' & dtext' & atext' & mtext'
          & _ & _ & _ & Htop' & _ & _ & _ & _ & Hinst & _).
    rewrite Htop in Htop'. injection Htop' as ->. rewrite Hinst. reflexivity. }
  split; [exact Hparts|]. split; [reflexivity|]. split; [exact Halu|].
  split; [|discriminate].
  intros ->. revert Halu. unfold generate_alu_verilog.
  rewrite (dict_item_some _ _ _ Heu). cbn. intros Halu. injection Halu as <-.
  split; [vm_compute; reflexivity|].
  vm_compute. intros [H | []]. discriminate.
Qed.

(** ** Facts: the artifact identifier *)






Lemma seed_to_params_returns_valid (s : string) (g g' : rng) (p : dict) :
  seed_to_params s g = (Ok p, g') -> valid_point p.
Proof.
  intros Hrun. destruct (seed_to_params_valid s g) as (p' & g'' & Hrun' & Hvalid).
  rewrite Hrun in Hrun'. injection Hrun' as -> _. exact Hvalid.
Qed.

(** ** The claims on the artifact identifier *)

(** C6. The artifact identifier is a function of the design point alone.
    For every valid design point, whatever the directory it is composed into
    and whatever was written or printed before, and so also when it is
    composed a second time, the composer names the artifact
    [micro_x86_core_<id>.v] with the one identifier [artifact_id] of the
    point, the first 8 digits of the digest of [str(params)]; and the design
    point sampled from any other seed, when it is equal to this one, gets the
    identical identifier and name. *)
Theorem artifact_id_of_design_point_alone
    (p : dict) (dir1 dir2 : string) (w1 w2 : world) :
  valid_point p ->
  exists id w1' w2' w3,
    id = artifact_id p
    /\ id = str_prefix 8 (Hashlib.hexdigest (encode (str_dict p)))
    /\ generate_top_level_verilog p dir1 w1
       = (Ok (path_join dir1 ("micro_x86_core_" ++ id ++ ".v")), w1')
    /\ generate_top_level_verilog p dir1 w1'
       = (Ok (path_join dir1 ("micro_x86_core_" ++ id ++ ".v")), w3)
    /\ generate_top_level_verilog p dir2 w2
       = (Ok (path_join dir2 ("micro_x86_core_" ++ id ++ ".v")), w2')
    /\ (forall (s1 s2 : string) (g1 g2 g1' g2' : rng) (p2 : dict),
          seed_to_params s1 g1 = (Ok p, g1') ->
          seed_to_params s2 g2 = (Ok p2, g2') ->
          p = p2 ->
          artifact_id p2 = id
          /\ generate_top_level_verilog p2 dir2 w2
             = (Ok (path_join dir2 ("micro_x86_core_" ++ id ++ ".v")), w2')).
Proof.
  intros Hvalid.
  destruct (wrapper_of_valid_point p Hvalid)
    as (dt & eu & mt & text & rf & dtext & atext & mtext & _ & _ & _ & Htop & _).
  exists (artifact_id p). eexists. eexists. eexists.
  split; [reflexivity|]. split; [reflexivity|].
  split; [apply (generate_top_level_verilog_run p dir1 text w1 Htop)|].
  split; [apply (generate_top_level_verilog_run p dir1 text _ Htop)|].
  split; [apply (generate_top_level_verilog_run p dir2 text w2 Htop)|].
  intros s1 s2 g1 g2 g1' g2' p2 _ _ <-.
  split; [reflexivity|].
  apply (generate_top_level_verilog_run p dir2 text w2 Htop).
Qed.


(** ** Facts kept for the record: a negative [max_results]

    [results[:max_results]] with a negative bound does not truncate to a
    count: it drops that many pairs from the end of the ranking. *)


(** The fields [decoder] and [memory] that the lexicon constrains are no
    fields of a design point, whose fields are [decoder_type] and
    [memory_type]: the words cisc, risc_like, fast_memory and simple_memory
    add nothing to any distance. *)
Lemma distance_ignores_decoder_and_memory (w : string) (p : dict) :
  In w ["cisc"; "risc_like"; "fast_memory"; "simple_memory"] ->
  valid_point p ->
  distance (target_of [w]) p = 0.
Proof.
  intros Hw (nr & am & dt & pd & eu & mt & -> & _).
  simpl in Hw.
  repeat match goal with H : _ \/ _ |- _ => destruct H as [H | H] end;
    try contradiction; subst; reflexivity.
Qed.

(** The distance to a target that constrains the pipeline depth alone. *)
Lemma distance_pipeline_depth
    (t nr : value) (am : list value) (dt pd eu mt : value) :
  distance [("pipeline_depth", t)] (design_point nr am dt pd eu mt)
  = field_cost pd t.
Proof. unfold distance. cbn. reflexivity. Qed.

(** ** Further facts: the target of a query *)

Lemma dict_get_set (d : dict) (k k' : string) (v : value) :
  dict_get (dict_set d k v) k' = if String.eqb k' k then Some v else dict_get d k'.
Proof.
  induction d as [|[k0 v0] d IH]; simpl.
  - reflexivity.
  - destruct (String.eqb k k0) eqn:E; simpl.
    + apply String.eqb_eq in E. subst k0.
      destruct (String.eqb k' k); reflexivity.
    + rewrite IH. destruct (String.eqb k' k0) eqn:E0; [|reflexivity].
      apply String.eqb_eq in E0. subst k0.
      rewrite String.eqb_sym in E. rewrite E. reflexivity.
Qed.

Lemma dict_get_not_key (d : dict) (k : string) :
  ~ In k (map fst d) -> dict_get d k = None.
Proof.
  induction d as [|[k0 v0] d IH]; intros Hnot; [reflexivity|].
  simpl in *. destruct (String.eqb k k0) eqn:E.
  - apply String.eqb_eq in E. subst. exfalso. apply Hnot. left. reflexivity.
  - apply IH. intros H. apply Hnot. right. exact H.
Qed.

(** Writing the fields of an entry, one after the other, over a dict. *)
Lemma entry_written (entry acc : dict) (k : string) :
  NoDup (map fst entry) ->
  dict_get (fold_left (fun t kv => dict_set t (fst kv) (snd kv)) entry acc) k
  = match dict_get entry k with
    | Some v => Some v
    | None => dict_get acc k
    end.
Proof.
  revert acc. induction entry as [|[k1 v1] entry IH]; intros acc Hnd; [reflexivity|].
  inversion Hnd as [|? ? Hfresh Hnd']; subst.
  cbn [fold_left fst snd dict_get]. rewrite (IH _ Hnd'), dict_get_set.
  destruct (String.eqb k k1) eqn:E.
  - apply String.eqb_eq in E. subst k1.
    rewrite (dict_get_not_key entry k Hfresh). reflexivity.
  - reflexivity.
Qed.

Lemma lexicon_entries_nodup (w : string) (entry : dict) :
  lexicon_get MicroX86Params.LEXICON w = Some entry -> NoDup (map fst entry).
Proof.
  unfold MicroX86Params.LEXICON. cbn [lexicon_get].
  repeat match goal with
         | |- context [String.eqb w ?s] => destruct (String.eqb w s)
         end;
    intros H; try discriminate; injection H as <-;
    repeat constructor; simpl;
    try (intros Hin; repeat (destruct Hin as [Hin | Hin]; [discriminate|]);
         exact Hin).
Qed.

Lemma target_of_snoc (ws : list string) (w : string) :
  target_of (ws ++ [w])
  = match lexicon_get MicroX86Params.LEXICON w with
    | Some entry =>
        fold_left (fun t kv => dict_set t (fst kv) (snd kv)) entry (target_of ws)
    | None => target_of ws
    end.
Proof. unfold target_of. rewrite fold_left_app. reflexivity. Qed.

(** X4. Later words override earlier ones, field by field: after a known
    word is appended to a query, each field its entry names holds the entry's
    value, and every other field holds what the query before it gave. *)
Theorem later_word_overrides (ws : list string) (w : string) (entry : dict) (k : string) :
  lexicon_get MicroX86Params.LEXICON w = Some entry ->
  dict_get (target_of (ws ++ [w])) k
  = match dict_get entry k with
    | Some v => Some v
    | None => dict_get (target_of ws) k
    end.
Proof.
  intros Hw. rewrite target_of_snoc, Hw.
  apply entry_written. exact (lexicon_entries_nodup w entry Hw).
Qed.

Lemma target_of_known (ws : list string) :
  target_of ws = target_of (filter known_word ws).
Proof.
  unfold target_of. generalize (@nil (string * value)) as acc.
  induction ws as [|w ws IH]; intros acc; [reflexivity|].
  cbn [fold_left filter]. unfold known_word at 1.
  destruct (lexicon_get MicroX86Params.LEXICON w) as [entry|] eqn:E.
  - cbn [fold_left]. rewrite E. apply IH.
  - apply IH.
Qed.

(** X5. A word the lexicon does not know is skipped wherever it stands in the
    query: the search returns what it returns for the query without its
    unknown words, and leaves the generator in the same state. *)
Theorem unknown_words_are_skipped
    (seeds query_words : list string) (max_results : Z) (g : rng) :
  similarity_search seeds query_words max_results g
  = similarity_search seeds (filter known_word query_words) max_results g.
Proof.
  unfold similarity_search. rewrite <- target_of_known. reflexivity.
Qed.

(** ** Further facts: the fields a target shares with a design point *)

Lemma dict_set_filter (d : dict) (k : string) (v : value) :
  filter sampled_field (dict_set d k v)
  = if sampled_field (k, v) then dict_set (filter sampled_field d) k v
    else filter sampled_field d.
Proof.
  assert (Hkey : forall a b : value, sampled_field (k, a) = sampled_field (k, b))
    by reflexivity.
  induction d as [|[k0 v0] d IH]; cbn [dict_set filter].
  - destruct (sampled_field (k, v)); reflexivity.
  - destruct (String.eqb k k0) eqn:E.
    + apply String.eqb_eq in E. subst k0. cbn [filter].
      rewrite (Hkey v0 v).
      destruct (sampled_field (k, v)); [|reflexivity].
      cbn [dict_set]. rewrite String.eqb_refl. reflexivity.
    + cbn [filter]. rewrite IH.
      destruct (sampled_field (k0, v0)), (sampled_field (k, v)); try reflexivity.
      cbn [dict_set]. rewrite E. reflexivity.
Qed.

Lemma entry_filter (entry acc : dict) :
  filter sampled_field
    (fold_left (fun t kv => dict_set t (fst kv) (snd kv)) entry acc)
  = fold_left (fun t kv => dict_set t (fst kv) (snd kv))
      (filter sampled_field entry) (filter sampled_field acc).
Proof.
  revert acc. induction entry as [|[k v] entry IH]; intros acc; [reflexivity|].
  cbn [fold_left filter fst snd]. rewrite IH, dict_set_filter.
  destruct (sampled_field (k, v)); reflexivity.
Qed.

(** An effective word constrains fields of a design point only, any other
    known word fields that a design point does not have. *)
Lemma lexicon_entry_fields (w : string) (entry : dict) :
  lexicon_get MicroX86Params.LEXICON w = Some entry ->
  filter sampled_field entry = if effective_word w then entry else [].
Proof.
  unfold MicroX86Params.LEXICON, effective_word. cbn [lexicon_get existsb].
  repeat match goal with
         | |- context [String.eqb w ?s] =>
             let E := fresh "E" in
             destruct (String.eqb w s) eqn:E;
             [apply String.eqb_eq in E; subst w; cbn|]
         end;
    intros H; try discriminate; injection H as <-; reflexivity.
Qed.

Lemma target_of_sampled_fields (ws : list string) :
  filter sampled_field (target_of ws) = target_of (filter effective_word ws).
Proof.
  unfold target_of.
  change (@nil (string * value)) with (filter sampled_field []) at 2.
  generalize (@nil (string * value)) as acc.
  induction ws as [|w ws IH]; intros acc; [reflexivity|].
  cbn [fold_left filter]. rewrite IH.
  destruct (lexicon_get MicroX86Params.LEXICON w) as [entry|] eqn:E.
  - rewrite entry_filter, (lexicon_entry_fields w entry E).
    destruct (effective_word w); cbn [fold_left]; [rewrite E|]; reflexivity.
  - destruct (effective_word w); cbn [fold_left]; [rewrite E|]; reflexivity.
Qed.

Lemma sum_Z_filter {A : Type} (h : A -> Z) (keep : A -> bool) (l : list A) :
  (forall x, In x l -> keep x = false -> h x = 0) ->
  sum_Z (map h l) = sum_Z (map h (filter keep l)).
Proof.
  induction l as [|x l IH]; intros H; [reflexivity|].
  cbn [map filter sum_Z fold_right].
  fold (sum_Z (map h l)). rewrite IH by (intros y Hy; apply H; right; exact Hy).
  destruct (keep x) eqn:E.
  - reflexivity.
  - rewrite (H x (or_introl eq_refl) E). reflexivity.
Qed.

Lemma valid_point_has_no_lexicon_only_field (p : dict) (kv : string * value) :
  valid_point p -> sampled_field kv = false -> dict_get p (fst kv) = None.
Proof.
  intros (nr & am & dt & pd & eu & mt & -> & _) Hkv.
  unfold sampled_field in Hkv. apply negb_false_iff, orb_true_iff in Hkv.
  destruct Hkv as [E | E]; apply String.eqb_eq in E; rewrite E; reflexivity.
Qed.

Lemma distance_sampled_fields (query_words : list string) (p : dict) :
  valid_point p ->
  distance (target_of query_words) p
  = distance (target_of (filter effective_word query_words)) p.
Proof.
  intros Hvalid.
  rewrite (distance_sum _ p (target_of_nodup query_words)).
  rewrite (distance_sum _ p (target_of_nodup (filter effective_word query_words))).
  rewrite <- target_of_sampled_fields.
  apply sum_Z_filter. intros kv _ Hkv.
  rewrite (valid_point_has_no_lexicon_only_field p kv Hvalid Hkv). reflexivity.
Qed.

Lemma score_ext (t1 t2 : dict) (seeds : list string) (g : rng) :
  (forall p, valid_point p -> distance t1 p = distance t2 p) ->
  score t1 seeds g = score t2 seeds g.
Proof.
  intros Heq. revert g. induction seeds as [|s seeds IH]; intros g; [reflexivity|].
  destruct (seed_to_params_valid s g) as (p & g1 & Hp & Hvalid).
  unfold score in *. cbn [mapM].
  rewrite (bind_run _ _ g g1 (s, distance t1 p))
    by (rewrite (bind_run _ _ _ _ _ Hp); reflexivity).
  rewrite (bind_run _ (fun y => ys <- mapM _ seeds ;; ret (y :: ys)) g g1
             (s, distance t2 p))
    by (rewrite (bind_run _ _ _ _ _ Hp); reflexivity).
  rewrite (Heq p Hvalid). unfold bind. rewrite IH. reflexivity.
Qed.

(** X6. The words cisc, risc_like, fast_memory and simple_memory never change
    a search: their lexicon entries constrain the fields [decoder] and
    [memory], which no design point has (its fields are [decoder_type] and
    [memory_type]), so the search returns what it returns for the query
    without them. *)
Theorem ineffective_words_change_nothing
    (seeds query_words : list string) (max_results : Z) (g : rng) :
  similarity_search seeds query_words max_results g
  = similarity_search seeds (filter effective_word query_words) max_results g.
Proof.
  unfold similarity_search, bind.
  rewrite (score_ext (target_of query_words)
             (target_of (filter effective_word query_words)) seeds g);
    [reflexivity|].
  intros p Hvalid. apply distance_sampled_fields. exact Hvalid.
Qed.

(** ** Further facts: bounds on what the search returns *)

Lemma lexicon_entry_keys (w : string) (entry : dict) :
  lexicon_get MicroX86Params.LEXICON w = Some entry ->
  incl (map fst entry) lexicon_fields.
Proof.
  unfold MicroX86Params.LEXICON. cbn [lexicon_get].
  repeat match goal with
         | |- context [String.eqb w ?s] => destruct (String.eqb w s)
         end;
    intros H; try discriminate; injection H as <-;
    intros k Hk; simpl in Hk |- *;
    repeat (destruct Hk as [Hk | Hk]; [subst k; auto 10|]); destruct Hk.
Qed.

Lemma target_of_keys (query_words : list string) :
  incl (map fst (target_of query_words)) lexicon_fields.
Proof.
  unfold target_of.
  assert (Hgen : forall (entry acc : dict),
             incl (map fst entry) lexicon_fields ->
             incl (map fst acc) lexicon_fields ->
             incl (map fst (fold_left (fun t kv => dict_set t (fst kv) (snd kv))
                              entry acc)) lexicon_fields).
  { induction entry as [|[k v] entry IH]; intros acc He Ha; [exact Ha|].
    cbn [fold_left fst snd]. apply IH.
    - intros x Hx. apply He. right. exact Hx.
    - rewrite dict_set_keys. destruct (dict_mem acc k); [exact Ha|].
      intros x Hx. apply in_app_or in Hx. destruct Hx as [Hx | [<- | []]].
      + apply Ha. exact Hx.
      + apply He. left. reflexivity. }
  assert (Hacc : incl (map fst (@nil (string * value))) lexicon_fields)
    by (intros x []).
  revert Hacc. generalize (@nil (string * value)) as acc.
  induction query_words as [|w ws IH]; intros acc Hacc; [exact Hacc|].
  cbn [fold_left]. apply IH.
  destruct (lexicon_get MicroX86Params.LEXICON w) as [entry|] eqn:E; [|exact Hacc].
  apply Hgen; [exact (lexicon_entry_keys w entry E) | exact Hacc].
Qed.

Lemma sum_Z_bounds {A : Type} (h : A -> Z) (l : list A) :
  (forall x, 0 <= h x <= 99) ->
  0 <= sum_Z (map h l) <= 99 * Z.of_nat (List.length l).
Proof.
  intros H. induction l as [|x l IH]; cbn [map sum_Z fold_right List.length].
  - lia.
  - fold (sum_Z (map h l)). specialize (H x). lia.
Qed.

(** At most the three fields num_regs, addressing_modes and pipeline_depth
    of a target are fields of a design point. *)
Lemma sampled_target_short (query_words : list string) :
  (List.length (filter sampled_field (target_of query_words)) <= 3)%nat.
Proof.
  set (t := filter sampled_field (target_of query_words)).
  assert (Hnd : NoDup (map fst t)).
  { unfold t. rewrite target_of_sampled_fields. apply target_of_nodup. }
  assert (Hincl : incl (map fst t) ["num_regs"; "addressing_modes"; "pipeline_depth"]).
  { intros k Hk. apply in_map_iff in Hk. destruct Hk as ([k' v] & <- & Hin).
    unfold t in Hin. apply filter_In in Hin. destruct Hin as [Hin Hs].
    assert (Hl : In k' lexicon_fields).
    { apply (target_of_keys query_words). change k' with (fst (k', v)).
      apply in_map. exact Hin. }
    unfold sampled_field in Hs. cbn [fst] in *.
    simpl in Hl.
    destruct Hl as [<- | [<- | [<- | [<- | [<- | []]]]]]; simpl in *;
      try discriminate; auto. }
  pose proof (NoDup_incl_length Hnd Hincl) as Hlen.
  rewrite length_map in Hlen. simpl in Hlen. exact Hlen.
Qed.

Lemma distance_bounded (query_words : list string) (p : dict) :
  valid_point p -> 0 <= distance (target_of query_words) p <= 297.
Proof.
  intros Hvalid.
  rewrite (distance_sampled_fields query_words p Hvalid).
  rewrite (distance_sum _ p (target_of_nodup _)).
  rewrite <- target_of_sampled_fields.
  pose proof (sampled_target_short query_words) as Hlen.
  pose proof (sum_Z_bounds
                (fun kv => match dict_get p (fst kv) with
                           | Some g => field_cost g (snd kv)
                           | None => 0
                           end)
                (filter sampled_field (target_of query_words))) as Hsum.
  assert (Hcost : forall kv : string * value,
             0 <= match dict_get p (fst kv) with
                  | Some g => field_cost g (snd kv)
                  | None => 0
                  end <= 99).
  { intros kv. destruct (dict_get p (fst kv)); [apply field_cost_range | lia]. }
  specialize (Hsum Hcost). lia.
Qed.

Lemma Forall_slice_to {A : Type} (P : A -> Prop) (l : list A) (stop : Z) :
  Forall P l -> Forall P (slice_to l stop).
Proof.
  intros H. unfold slice_to. rewrite Forall_forall in *. intros x Hx.
  apply H. rewrite <- (firstn_skipn (Z.to_nat (if stop <? 0 then stop + Z.of_nat (List.length l) else stop)) l).
  apply in_or_app. left. exact Hx.
Qed.

(** X7. Every distance the search reports lies between 0 and 297, whatever
    the query, the candidates and the bound: a target holds at most three
    fields that a design point has, and each costs at most 99. *)
Theorem search_distances_bounded
    (seeds query_words : list string) (max_results : Z) (g g' : rng)
    (matches : list (string * Z)) :
  similarity_search seeds query_words max_results g = (Ok matches, g') ->
  Forall (fun m => 0 <= snd m <= 297) matches.
Proof.
  intros Hsearch.
  destruct (score_ok (target_of query_words) seeds g) as (results & g1 & Hrun & Hall).
  rewrite (similarity_search_run _ _ _ _ _ _ Hrun) in Hsearch.
  injection Hsearch as <- _.
  apply Forall_slice_to.
  eapply Permutation_Forall; [apply Permutation_sym, sort_by_permutation|].
  clear Hrun. induction Hall as [|s r seeds results (_ & p & g0 & g2 & _ & Hvalid & Hd) _ IH];
    constructor; [|exact IH].
  rewrite Hd. apply distance_bounded. exact Hvalid.
Qed.


(** X9. Ranking stability: what the search returns does not depend on the
    state in which it finds the generator, since every candidate reseeds
    it. *)
Theorem search_independent_of_generator_state
    (seeds query_words : list string) (max_results : Z) (g1 g2 : rng) :
  fst (similarity_search seeds query_words max_results g1)
  = fst (similarity_search seeds query_words max_results g2).
Proof.
  destruct seeds as [|s seeds]; [reflexivity|].
  unfold similarity_search, score. cbn [mapM]. unfold bind.
  rewrite (seed_to_params_reseeds s g1 g2). reflexivity.
Qed.



(** ** Further facts: the digest as text and as a number *)

Lemma land_255_range (x : Z) : 0 <= Z.land x 255 < 256.
Proof.
  change 255 with (Z.ones 8). rewrite Z.land_ones by lia.
  apply Z.mod_pos_bound. lia.
Qed.

Lemma bytes_le_range (n : nat) (x : Z) :
  Forall (fun b => 0 <= b < 256) (Hashlib.bytes_le n x)
  /\ List.length (Hashlib.bytes_le n x) = n.
Proof.
  unfold Hashlib.bytes_le. split.
  - apply Forall_forall. intros b Hb. apply in_map_iff in Hb.
    destruct Hb as (i & <- & _). apply land_255_range.
  - rewrite length_map, length_seq. reflexivity.
Qed.

(** A digest is sixteen bytes. *)
Lemma digest_shape (msg : list Z) :
  Forall (fun b => 0 <= b < 256) (Hashlib.digest msg)
  /\ List.length (Hashlib.digest msg) = 16%nat.
Proof.
  unfold Hashlib.digest.
  destruct (fold_left Hashlib.compress _ Hashlib.init) as [[[a b] c] d].
  destruct (bytes_le_range 4 a) as [Ha La], (bytes_le_range 4 b) as [Hb Lb],
    (bytes_le_range 4 c) as [Hc Lc], (bytes_le_range 4 d) as [Hd Ld].
  split.
  - repeat (apply Forall_app; split); assumption.
  - rewrite !length_app, La, Lb, Lc, Ld. reflexivity.
Qed.

Lemma nibble_cases (n : Z) :
  0 <= n < 16 ->
  n = 0 \/ n = 1 \/ n = 2 \/ n = 3 \/ n = 4 \/ n = 5 \/ n = 6 \/ n = 7 \/ n = 8
  \/ n = 9 \/ n = 10 \/ n = 11 \/ n = 12 \/ n = 13 \/ n = 14 \/ n = 15.
Proof. lia. Qed.

Lemma hex_digit_is_hex (n : Z) : 0 <= n < 16 -> is_hex_digit (hex_digit n) = true.
Proof.
  intros H. apply nibble_cases in H.
  repeat (destruct H as [-> | H]; [reflexivity|]). subst. reflexivity.
Qed.

Lemma hex_value_digit (n : Z) : 0 <= n < 16 -> hex_value (hex_digit n) = n.
Proof.
  intros H. apply nibble_cases in H.
  repeat (destruct H as [-> | H]; [reflexivity|]). subst. reflexivity.
Qed.

Lemma byte_nibbles (b : Z) : 0 <= b < 256 -> 0 <= b / 16 < 16 /\ 0 <= b mod 16 < 16.
Proof.
  intros H. split.
  - split; [apply Z.div_pos; lia | apply Z.div_lt_upper_bound; lia].
  - apply Z.mod_pos_bound. lia.
Qed.

Lemma concat_hex_cons (b : Z) (l : list Z) :
  String.concat "" (map hex2 (b :: l)) = hex2 b ++ String.concat "" (map hex2 l).
Proof.
  cbn [map String.concat]. destruct (map hex2 l) eqn:E; [|reflexivity].
  reflexivity.
Qed.

Lemma hex_text_shape (l : list Z) :
  Forall (fun b => 0 <= b < 256) l ->
  all_chars is_hex_digit (String.concat "" (map hex2 l)) = true
  /\ String.length (String.concat "" (map hex2 l)) = (2 * List.length l)%nat.
Proof.
  induction 1 as [|b l Hb _ IH]; [split; reflexivity|].
  rewrite concat_hex_cons. destruct IH as [IHc IHl].
  destruct (byte_nibbles b Hb) as [Hhi Hlo].
  change (hex2 b)
    with (String (hex_digit (b / 16)) (String (hex_digit (b mod 16)) "")).
  cbn [append all_chars String.length].
  rewrite (hex_digit_is_hex _ Hhi), (hex_digit_is_hex _ Hlo), IHc, IHl.
  split; [reflexivity | cbn [List.length]; lia].
Qed.

Lemma prefix_shape (f : ascii -> bool) (n : nat) (s : string) :
  all_chars f s = true -> (n <= String.length s)%nat ->
  all_chars f (str_prefix n s) = true /\ String.length (str_prefix n s) = n.
Proof.
  unfold str_prefix. revert s. induction n as [|n IH]; intros s Hall Hlen.
  - destruct s; split; reflexivity.
  - destruct s as [|c s]; [simpl in Hlen; lia|].
    cbn [all_chars String.length] in *. apply andb_true_iff in Hall.
    destruct Hall as [Hc Hall].
    destruct (IH s Hall ltac:(lia)) as [IHa IHl].
    cbn [substring all_chars String.length]. rewrite Hc, IHa, IHl. split; reflexivity.
Qed.

(** X11. Whatever the dict, the artifact identifier is exactly eight
    characters, each one of 0-9 or a-f, and in the current directory the
    artifact is named [./micro_x86_core_<identifier>.v]. *)
Theorem artifact_id_is_eight_hex_digits (params : dict) :
  String.length (artifact_id params) = 8%nat
  /\ all_chars is_hex_digit (artifact_id params) = true
  /\ path_join "." ("micro_x86_core_" ++ artifact_id params ++ ".v")
     = "./micro_x86_core_" ++ artifact_id params ++ ".v".
Proof.
  unfold artifact_id, Hashlib.hexdigest.
  destruct (digest_shape (encode (str_dict params))) as [Hrange Hlen].
  destruct (hex_text_shape _ Hrange) as [Hall Hlen'].
  rewrite Hlen in Hlen'.
  destruct (prefix_shape is_hex_digit 8 _ Hall ltac:(lia)) as [Hp Hl].
  repeat split; assumption || reflexivity.
Qed.

Lemma int_of_hex_bytes (l : list Z) (acc : Z) :
  Forall (fun b => 0 <= b < 256) l ->
  int_of_hex_from acc (String.concat "" (map hex2 l))
  = fold_left (fun a b => 256 * a + b) l acc.
Proof.
  intros H. revert acc. induction H as [|b l Hb _ IH]; intros acc; [reflexivity|].
  rewrite concat_hex_cons. destruct (byte_nibbles b Hb) as [Hhi Hlo].
  change (hex2 b)
    with (String (hex_digit (b / 16)) (String (hex_digit (b mod 16)) "")).
  cbn [append int_of_hex_from fold_left].
  rewrite (hex_value_digit _ Hhi), (hex_value_digit _ Hlo), IH.
  f_equal. pose proof (Z.div_mod b 16 ltac:(lia)). lia.
Qed.

Lemma big_endian_bound (l : list Z) (acc : Z) :
  Forall (fun b => 0 <= b < 256) l -> 0 <= acc ->
  0 <= fold_left (fun a b => 256 * a + b) l acc
     < (acc + 1) * 256 ^ Z.of_nat (List.length l).
Proof.
  intros H. revert acc. induction H as [|b l Hb _ IH]; intros acc Hacc.
  - cbn. lia.
  - cbn [fold_left List.length]. specialize (IH (256 * acc + b) ltac:(lia)).
    rewrite Nat2Z.inj_succ, Z.pow_succ_r by lia.
    assert (0 < 256 ^ Z.of_nat (List.length l)) by (apply Z.pow_pos_nonneg; lia).
    nia.
Qed.

(** X12. For every seed, the integer that [seed_to_params] hands to
    [random.seed] is the sixteen bytes of the MD5 digest of the encoded seed
    read as one big-endian number: it is never negative and lies below
    2**128. *)
Theorem seed_integer_is_128_bits (seed_str : string) :
  let a := int_of_hex (Hashlib.hexdigest (encode seed_str)) in
  a = fold_left (fun x b => 256 * x + b) (Hashlib.digest (encode seed_str)) 0
  /\ 0 <= a < 2 ^ 128
  /\ forall g, seed_to_params seed_str g
               = seed_to_params seed_str (rng_seed a).
Proof.
  cbv zeta. destruct (digest_shape (encode seed_str)) as [Hrange Hlen].
  unfold int_of_hex, Hashlib.hexdigest.
  rewrite (int_of_hex_bytes _ 0 Hrange).
  split; [reflexivity|]. split.
  - pose proof (big_endian_bound _ 0 Hrange ltac:(lia)) as Hb.
    rewrite Hlen in Hb. change ((0 + 1) * 256 ^ Z.of_nat 16) with (2 ^ 128) in Hb.
    exact Hb.
  - intros g. apply seed_to_params_reseeds.
Qed.

(** ** Further facts: how the composer fails, and what it lists *)

Lemma top_template_failure (params : dict) (e : exn) :
  top_template params = Raise e ->
  (e = TypeError
   /\ exists v, dict_get params "num_regs" = Some v /\ forall z, v <> VInt z)
  \/ exists k,
       In k ["num_regs"; "pipeline_depth"; "decoder_type"; "exec_units"; "memory_type"]
       /\ e = KeyError k /\ dict_get params k = None.
Proof.
  unfold top_template, verilog_parts, generate_register_file_verilog,
    generate_decoder_verilog, generate_alu_verilog, generate_memory_interface_verilog,
    dict_item.
  destruct (dict_get params "num_regs") as [nr|] eqn:Hnr; cbn [result_bind];
    [|intros H; injection H as <-; right; exists "num_regs"; simpl; auto].
  destruct (dict_get params "pipeline_depth") as [pd|] eqn:Hpd; cbn [result_bind];
    [|intros H; injection H as <-; right; exists "pipeline_depth"; simpl; auto].
  destruct nr as [z | s | l]; cbn [reg_names_upto result_bind];
    try (intros H; injection H as <-; left; split; [reflexivity|];
         eexists; split; [reflexivity | intros z; discriminate]).
  destruct (dict_get params "decoder_type") as [dt|] eqn:Hdt; cbn [result_bind];
    [|intros H; injection H as <-; right; exists "decoder_type"; simpl; auto].
  destruct (value_eqb dt (VStr "hardwired")); cbn [result_bind];
    (destruct (dict_get params "exec_units") as [eu|] eqn:Heu; cbn [result_bind];
     [|intros H; injection H as <-; right; exists "exec_units"; simpl; auto 10]);
    (destruct (value_eqb eu (VStr "single_alu")); cbn [result_bind];
     (destruct (dict_get params "memory_type") as [mt|] eqn:Hmt; cbn [result_bind];
      [|intros H; injection H as <-; right; exists "memory_type"; simpl; auto 10]));
    destruct (value_eqb mt (VStr "simple")); cbn [result_bind]; discriminate.
Qed.

(** What a composed template has read. *)
Lemma top_template_success (params : dict) (text : string) :
  top_template params = Ok text ->
  (exists z, dict_get params "num_regs" = Some (VInt z))
  /\ forall k,
       In k ["num_regs"; "pipeline_depth"; "decoder_type"; "exec_units"; "memory_type"] ->
       dict_get params k <> None.
Proof.
  unfold top_template, verilog_parts, generate_register_file_verilog,
    generate_decoder_verilog, generate_alu_verilog, generate_memory_interface_verilog,
    dict_item.
  destruct (dict_get params "num_regs") as [nr|] eqn:Hnr; cbn [result_bind];
    [|discriminate].
  destruct (dict_get params "pipeline_depth") as [pd|] eqn:Hpd; cbn [result_bind];
    [|discriminate].
  destruct nr as [z | s | l]; cbn [reg_names_upto result_bind]; try discriminate.
  destruct (dict_get params "decoder_type") as [dt|] eqn:Hdt; cbn [result_bind];
    [|discriminate].
  destruct (value_eqb dt (VStr "hardwired")); cbn [result_bind];
    (destruct (dict_get params "exec_units") as [eu|] eqn:Heu; cbn [result_bind];
     [|discriminate]);
    (destruct (value_eqb eu (VStr "single_alu")); cbn [result_bind];
     (destruct (dict_get params "memory_type") as [mt|] eqn:Hmt; cbn [result_bind];
      [|discriminate]));
    (intros _; split; [exists z; reflexivity|];
     intros k [<- | [<- | [<- | [<- | [<- | []]]]]]; congruence).
Qed.

(** X1. A dict that lacks one of the five fields the composer reads, or whose
    [num_regs] is no integer, makes the composer raise before it opens the
    file: nothing is written and nothing printed, and the exception is the
    [KeyError] of a field the dict lacks or the [TypeError] of the [num_regs]
    that is no integer. *)
Theorem composer_raises_on_incomplete_dict
    (params : dict) (output_dir : string) (w : world) :
  (exists k,
      In k ["num_regs"; "pipeline_depth"; "decoder_type"; "exec_units"; "memory_type"]
      /\ dict_get params k = None)
  \/ (exists v, dict_get params "num_regs" = Some v /\ forall z, v <> VInt z) ->
  exists e,
    generate_top_level_verilog params output_dir w = (Raise e, w)
    /\ ((e = TypeError
         /\ exists v, dict_get params "num_regs" = Some v /\ forall z, v <> VInt z)
        \/ exists k,
             In k ["num_regs"; "pipeline_depth"; "decoder_type"; "exec_units";
                   "memory_type"]
             /\ e = KeyError k /\ dict_get params k = None).
Proof.
  intros Hbad. unfold generate_top_level_verilog, lift, bind.
  destruct (top_template params) as [text | e] eqn:Htop.
  - exfalso. destruct (top_template_success params text Htop) as ((z & Hz) & Hall).
    destruct Hbad as [(k & Hk & Hnone) | (v & Hv & Hint)].
    + exact (Hall k Hk Hnone).
    + rewrite Hz in Hv. injection Hv as <-. exact (Hint z eq_refl).
  - exists e. split; [reflexivity|]. exact (top_template_failure params e Htop).
Qed.

(** X2. For every valid design point the composer generates four module
    texts in the fixed order register file, decoder, execution unit, memory;
    each declares exactly one module, named [reg_file], [decoder_<type>],
    [alu] or [agu_alu_separate], and [memory_<type>], and instantiates
    none. *)
Theorem generated_modules_in_fixed_order (p : dict) :
  valid_point p ->
  exists dt eu mt parts,
    dict_get p "decoder_type" = Some (VStr dt)
    /\ dict_get p "exec_units" = Some (VStr eu)
    /\ dict_get p "memory_type" = Some (VStr mt)
    /\ verilog_parts p = Ok parts
    /\ map declared_modules parts
       = [["reg_file"]; ["decoder_" ++ dt];
          [if String.eqb eu "single_alu" then "alu" else "agu_alu_separate"];
          ["memory_" ++ mt]]
    /\ map instantiated_modules parts = [[]; []; []; []].
Proof.
  intros (nr & am & dt & pd & eu & mt & -> & Hnr & _ & Hdt & Hpd & Heu & Hmt).
  simpl in Hnr, Hdt, Hpd, Heu, Hmt.
  repeat match goal with H : _ \/ _ |- _ => destruct H as [H | H] end;
    try contradiction; subst;
    (do 4 eexists;
     split; [reflexivity|]; split; [reflexivity|]; split; [reflexivity|];
     split; [reflexivity|]; split; vm_compute; reflexivity).
Qed.

Lemma slice_to_length {A : Type} (l : list A) (stop : Z) :
  len (slice_to l stop)
  = Z.max 0 (Z.min (len l) (if stop <? 0 then stop + len l else stop)).
Proof.
  unfold slice_to, len. rewrite length_firstn.
  destruct (stop <? 0) eqn:E; lia.
Qed.

(** X3. The wrapper lists the register names [REG_NAMES[:num_regs]]: for an
    integer [num_regs] from 0 on it names the first [num_regs] registers but
    never more than the eight that exist, so a [num_regs] above eight
    declares more registers than it names; for a negative [num_regs] it
    names all but the last [-num_regs]. *)
Theorem wrapper_names_at_most_eight_registers
    (params : dict) (z : Z) (pd dt eu mt : value) :
  dict_get params "num_regs" = Some (VInt z) ->
  dict_get params "pipeline_depth" = Some pd ->
  dict_get params "decoder_type" = Some dt ->
  dict_get params "exec_units" = Some eu ->
  dict_get params "memory_type" = Some mt ->
  exists lines names,
    top_template params = Ok (text_of_lines lines)
    /\ nth_error lines 6 = Some ("    parameter NUM_REGS = " ++ str_int z ++ ",")
    /\ nth_error lines 71
       = Some ("    // Register names for simulation: " ++ join ", " names)
    /\ names = slice_to MicroX86Params.REG_NAMES z
    /\ (0 <= z -> names = firstn (Z.to_nat z) MicroX86Params.REG_NAMES
                  /\ len names = Z.min 8 z)
    /\ (z < 0 -> len names = Z.max 0 (8 + z)).
Proof.
  intros Hnr Hpd Hdt Heu Hmt.
  exists (top_lines (VInt z) pd dt mt (slice_to MicroX86Params.REG_NAMES z)),
    (slice_to MicroX86Params.REG_NAMES z).
  split; [exact (top_template_run params z pd dt eu mt Hnr Hpd Hdt Heu Hmt)|].
  split; [reflexivity|]. split; [reflexivity|]. split; [reflexivity|].
  pose proof (slice_to_length MicroX86Params.REG_NAMES z) as Hlen.
  change (len MicroX86Params.REG_NAMES) with 8 in Hlen.
  split.
  - intros Hz. split; [apply slice_to_nonneg; exact Hz|].
    destruct (z <? 0) eqn:E; [apply Z.ltb_lt in E; lia|]. lia.
  - intros Hz. destruct (z <? 0) eqn:E; [|apply Z.ltb_ge in E; lia]. lia.
Qed.

(** ** Further facts: verification and [main] *)

Lemma verify_verilog_run (verilog_file : string) (w : world) (status : Z) :
  run_command (syntax_check_command verilog_file) w = Some status ->
  let w1 := mk_world (files w) (List.app (stdout w) ["Syntax check passed."]) in
  let out := snd (fst (run_shell (synth_command verilog_file) w1)) in
  let err := snd (run_shell (synth_command verilog_file) w1) in
  verify_verilog verilog_file w
  = (Returns ((status =? 0) && negb (contains "Error" err)),
     mk_world (files w)
       (List.app (stdout w)
          (if status =? 0
           then List.app ["Syntax check passed."; "Synthesis: " ++ out]
                  (if contains "Error" err then []
                   else ["Simulation stub: Would run Verilator here."])
           else ["Verification failed."]))).
Proof.
  intros Hrun. cbv zeta. unfold verify_verilog. rewrite Hrun.
  destruct (status =? 0); unfold print; cbn [files stdout andb].
  - destruct (run_shell (synth_command verilog_file) _) as [[rc out] err].
    cbn [fst snd files stdout].
    destruct (contains "Error" err); cbn [negb];
      rewrite <- ?app_assoc; reflexivity.
  - reflexivity.
Qed.

(** X13. When [yosys] can be started, [verify_verilog] returns, and it
    returns True exactly when the syntax check exits with status 0 and the
    standard error of the synthesis run does not contain the text Error; the
    exit status of the synthesis run plays no part.  A failed syntax check
    prints the one line Verification failed. *)
Theorem verify_verdict (verilog_file : string) (w : world) (status : Z) :
  run_command (syntax_check_command verilog_file) w = Some status ->
  exists verdict w',
    verify_verilog verilog_file w = (Returns verdict, w')
    /\ (verdict = true <->
        status = 0
        /\ contains "Error"
             (snd (run_shell (synth_command verilog_file)
                     (mk_world (files w)
                        (List.app (stdout w) ["Syntax check passed."]))))
           = false)
    /\ (status <> 0 ->
        verdict = false
        /\ stdout w' = List.app (stdout w) ["Verification failed."]).
Proof.
  intros Hrun. pose proof (verify_verilog_run verilog_file w status Hrun) as H.
  cbv zeta in H. eexists. eexists. split; [exact H|]. split.
  - rewrite andb_true_iff, negb_true_iff, Z.eqb_eq. reflexivity.
  - intros Hne. apply Z.eqb_neq in Hne. rewrite Hne. split; reflexivity.
Qed.

Lemma pbind_run {A B : Type} (m : P A) (k : A -> P B)
    (s s' : rng * world) (a : A) :
  m s = (Returns a, s') -> pbind m k s = k a s'.
Proof. unfold pbind. intros ->. reflexivity. Qed.

Lemma of_rng_run {A : Type} (m : M rng A) (g g' : rng) (w : world) (a : A) :
  m g = (Ok a, g') -> of_rng m (g, w) = (Returns a, (g', w)).
Proof. unfold of_rng. cbn [fst snd]. intros ->. reflexivity. Qed.

Lemma of_world_run {A : Type} (m : M world A) (g : rng) (w w' : world) (a : A) :
  m w = (Ok a, w') -> of_world m (g, w) = (Returns a, (g, w')).
Proof. unfold of_world. cbn [fst snd]. intros ->. reflexivity. Qed.

Lemma main_arguments (script seed_str : string) (query_words : list string) :
  let argv := script :: seed_str :: query_words in
  (len argv <? 2) = false
  /\ index argv 1 = Ok seed_str
  /\ (if 2 <? len argv then skipn 2 argv else []) = query_words.
Proof.
  cbv zeta. unfold len. cbn [List.length].
  split; [apply Z.ltb_ge; lia|]. split.
  - destruct (index_in_range (script :: seed_str :: query_words) 1) as (x & Hx & Hnth).
    + unfold len. cbn [List.length]. lia.
    + cbn in Hnth. injection Hnth as <-. exact Hx.
  - destruct query_words as [|q qs]; [reflexivity|].
    destruct (2 <? _) eqn:E; [reflexivity|].
    apply Z.ltb_ge in E. cbn [List.length] in E. lia.
Qed.

(** The search step of [main]: nothing without query words, else one line
    with at most five matches. *)
Lemma main_search_step (query_words : list string) (g : rng) (w : world) :
  exists g' lines,
    (match query_words with
     | [] => pret tt
     | _ :: _ =>
         matches <~ of_rng (similarity_search example_seeds query_words
                              default_max_results) ;;
         of_world (print ("Search results: " ++ repr_matches matches))
     end) (g, w)
    = (Returns tt, (g', mk_world (files w) (List.app (stdout w) lines)))
    /\ ((query_words = [] /\ lines = [] /\ g' = g)
        \/ (query_words <> []
            /\ exists matches,
                 fst (similarity_search example_seeds query_words
                        default_max_results g) = Ok matches
                 /\ (List.length matches <= 5)%nat
                 /\ lines = ["Search results: " ++ repr_matches matches])).
Proof.
  destruct query_words as [|q qs].
  - exists g, []. split.
    + unfold pret. rewrite app_nil_r. destruct w; reflexivity.
    + left. repeat split.
  - destruct (score_ok (target_of (q :: qs)) example_seeds g)
      as (results & g' & Hrun & _).
    pose proof (similarity_search_run example_seeds (q :: qs) default_max_results
                  g g' results Hrun) as Hsearch.
    rewrite slice_to_nonneg in Hsearch by (unfold default_max_results; lia).
    exists g'. eexists. split.
    + rewrite (pbind_run _ _ _ _ _ (of_rng_run _ _ _ _ _ Hsearch)).
      apply of_world_run. reflexivity.
    + right. split; [discriminate|]. eexists. split; [rewrite Hsearch; reflexivity|].
      split; [|reflexivity].
      rewrite length_firstn. unfold default_max_results. lia.
Qed.

(** X14. Without a seed on the command line, [main] prints the usage line and
    leaves through [sys.exit(1)]: it samples nothing, writes no file and runs
    no tool. *)
Theorem main_without_seed_exits (argv : list string) (g : rng) (w : world) :
  (List.length argv < 2)%nat ->
  main argv (g, w)
  = (Exits 1,
     (g, mk_world (files w)
           (List.app (stdout w)
              ["Usage: python cpu_babel_generator.py <seed> [query_words...]"]))).
Proof.
  intros Hlen. unfold main.
  destruct (len argv <? 2) eqn:E; [|apply Z.ltb_ge in E; unfold len in E; lia].
  reflexivity.
Qed.

(** X15. A run of [main] that returns normally had a seed on its command
    line and has written exactly two files, first the artifact
    [./micro_x86_core_<id>.v] of the design point sampled from the seed and
    then [assembler.py] with the fixed assembler text, the same for every
    query; it has printed the parameters first and the assembler notice
    last, and a line of search results, with at most five matches, exactly
    when query words were given. *)
Theorem main_completed_run
    (argv : list string) (g g' : rng) (w w' : world) :
  main argv (g, w) = (Returns tt, (g', w')) ->
  exists script seed_str query_words p text name search_lines verify_lines,
    argv = script :: seed_str :: query_words
    /\ fst (seed_to_params seed_str g) = Ok p
    /\ top_template p = Ok text
    /\ name = "./micro_x86_core_" ++ artifact_id p ++ ".v"
    /\ files w'
       = ("assembler.py", text_of_lines assembler_lines) :: (name, text) :: files w
    /\ stdout w'
       = List.app (stdout w)
           (List.app ["Generated params: " ++ str_dict p; "Generated Verilog: " ++ name]
              (List.app search_lines
                 (List.app verify_lines ["Assembler generated: assembler.py"])))
    /\ ((query_words = [] /\ search_lines = [])
        \/ (query_words <> []
            /\ exists matches,
                 search_lines = ["Search results: " ++ repr_matches matches]
                 /\ (List.length matches <= 5)%nat)).
Proof.
  intros Hmain.
  destruct argv as [|script [|seed_str query_words]];
    [discriminate Hmain | discriminate Hmain |].
  destruct (main_arguments script seed_str query_words) as (Hlen & Hidx & Hq).
  destruct (seed_to_params_valid seed_str g) as (p & g1 & Hp & Hvalid).
  destruct (wrapper_of_valid_point p Hvalid)
    as (dt & eu & mt & text & rf & dtext & atext & mtext & _ & _ & _ & Htop & _).
  set (name := "./micro_x86_core_" ++ artifact_id p ++ ".v").
  set (wa := mk_world (files w)
               (List.app (stdout w) ["Generated params: " ++ str_dict p])).
  set (wb := mk_world ((name, text) :: files wa)
               (List.app (stdout wa) ["Generated Verilog: " ++ name])).
  destruct (main_search_step query_words g1 wb) as (g2 & slines & Hsearch & Hcases).
  set (wc := mk_world (files wb) (List.app (stdout wb) slines)) in *.
  assert (Hcases' :
            (query_words = [] /\ slines = [])
            \/ (query_words <> []
                /\ exists matches,
                     slines = ["Search results: " ++ repr_matches matches]
                     /\ (List.length matches <= 5)%nat)).
  { destruct Hcases as [(Hq0 & Hs0 & _) | (Hq1 & matches & _ & Hm & Hs1)].
    - left. split; assumption.
    - right. split; [exact Hq1|]. exists matches. split; assumption. }
  unfold main in Hmain. rewrite Hlen in Hmain.
  rewrite (pbind_run _ _ (g, w) (g, w) seed_str) in Hmain
    by (apply of_world_run; unfold lift; rewrite Hidx; reflexivity).
  cbv zeta in Hmain. rewrite Hq in Hmain.
  rewrite (pbind_run _ _ _ _ _ (of_rng_run _ _ _ w _ Hp)) in Hmain.
  rewrite (pbind_run _ _ (g1, w) (g1, wa) tt) in Hmain
    by (apply of_world_run; reflexivity).
  rewrite (pbind_run _ _ (g1, wa) (g1, wb) name) in Hmain
    by (apply of_world_run;
        exact (generate_top_level_verilog_run p "." text wa Htop)).
  rewrite (pbind_run _ _ _ _ _ Hsearch) in Hmain. fold wc in Hmain.
  destruct (run_command (syntax_check_command name) wc) as [status|] eqn:Hcmd.
  - pose proof (verify_verilog_run name wc status Hcmd) as Hverify.
    cbv zeta in Hverify.
    match type of Hverify with
    | _ = (Returns ?b, mk_world _ (List.app _ ?l)) =>
        remember b as verdict eqn:Hverdict; set (vlines := l) in *
    end.
    clear Hverdict.
    rewrite (pbind_run _ _ (g2, wc)
               (g2, mk_world (files wc) (List.app (stdout wc) vlines)) verdict)
      in Hmain
      by (unfold of_tool; cbn [fst snd]; rewrite Hverify; reflexivity).
    exists script, seed_str, query_words, p, text, name, slines,
      (List.app vlines (if verdict then ["Core verified successfully."] else [])).
    split; [reflexivity|]. split; [rewrite Hp; reflexivity|].
    split; [exact Htop|]. split; [reflexivity|].
    destruct verdict; cbn in Hmain; injection Hmain as _ <-;
      cbn [files stdout];
      (split; [reflexivity|]); (split; [|exact Hcases']);
      unfold wc, wb, wa; cbn [files stdout];
      rewrite <- ?app_assoc; reflexivity.
  - exfalso. unfold pbind, of_tool, verify_verilog in Hmain. cbn [fst snd] in Hmain.
    rewrite Hcmd in Hmain. discriminate Hmain.
Qed.

End Generator.

(** ** The digest on known inputs *)

Example md5_empty : Hashlib.hexdigest (encode "") = "d41d8cd98f00b204e9800998ecf8427e".
Proof. vm_compute. reflexivity. Qed.

Example md5_abc : Hashlib.hexdigest (encode "abc") = "900150983cd24fb0d6963f7d28e17f72".
Proof. vm_compute. reflexivity. Qed.

Example md5_seed_0 : Hashlib.hexdigest (encode "seed_0") = "2c3aefffe1f49bbb4c9a155f6d317d02".
Proof. vm_compute. reflexivity. Qed.

(** [str(params)] prints the addressing modes in the order of the list. *)
Example str_dict_split_units_point :
  str_dict split_units_point
  = "{'num_regs': 4, 'addressing_modes': [1, 3], 'decoder_type': 'hardwired', 'pipeline_depth': 2, 'exec_units': 'separate_agu_alu', 'memory_type': 'simple', 'instructions': ['ADD', 'SUB', 'AND', 'OR', 'XOR', 'INC', 'DEC', 'MOV', 'JMP', 'CMP', 'JE', 'JNE', 'PUSH', 'POP']}".
Proof. vm_compute. reflexivity. Qed.

Example artifact_id_split_units_point : artifact_id split_units_point = "cc0eb3a4".
Proof. vm_compute. reflexivity. Qed.

(** ** The concrete generator meets the contract *)

Lemma lcg_randbelow_range (n : Z) (g : Lcg.rng) :
  0 < n -> 0 <= fst (Lcg.randbelow n g) < n.
Proof. intros Hn. unfold Lcg.randbelow. simpl. apply Z.mod_pos_bound. exact Hn. Qed.

Lemma split_units_point_valid : valid_point split_units_point.
Proof.
  exists (VInt 4), [VInt 1; VInt 3], (VStr "hardwired"), (VInt 2),
    (VStr "separate_agu_alu"), (VStr "simple").
  unfold valid_modes. simpl.
  repeat split; auto; try discriminate.
  - repeat constructor; simpl; intuition discriminate.
  - intros m [<- | [<- | []]]; simpl; auto.
Qed.

(** ** UTF-8 on known code points: e acute, the euro sign, U+1F600 *)

Example utf8_two_bytes : encode_points [233] = Ok [195; 169].
Proof. reflexivity. Qed.

Example utf8_three_bytes : encode_points [8364] = Ok [226; 130; 172].
Proof. reflexivity. Qed.

Example utf8_four_bytes : encode_points [128512] = Ok [240; 159; 152; 128].
Proof. reflexivity. Qed.

Example utf8_last_before_surrogates : encode_points [55295] = Ok [237; 159; 191].
Proof. reflexivity. Qed.

Example utf8_surrogate : encode_points [97; 56575] = Raise UnicodeEncodeError.
Proof. reflexivity. Qed.

(** ** The claims at concrete inputs *)

Lemma seed_to_params_deterministic_witness :
  (forall n g, 0 < n -> 0 <= fst (Lcg.randbelow n g) < n)
  /\ exists p1 p2 g1 g2,
       seed_to_params Lcg.rng Lcg.rng_seed Lcg.randbelow "seed_0" 0 = (Ok p1, g1)
       /\ seed_to_params Lcg.rng Lcg.rng_seed Lcg.randbelow "seed_0" g1 = (Ok p2, g2)
       /\ p1 = p2
       /\ (forall k, dict_get p1 k = dict_get p2 k)
       /\ (forall g0,
             fst (seed_to_params Lcg.rng Lcg.rng_seed Lcg.randbelow "seed_0" g0) = Ok p1).
Proof.
  split; [exact lcg_randbelow_range|].
  exact (seed_to_params_deterministic Lcg.rng Lcg.rng_seed Lcg.randbelow
           lcg_randbelow_range "seed_0" 0).
Defined.

(** The seed is the str seed_ followed by the euro sign, U+20AC. *)
Lemma seed_to_params_in_catalog_witness :
  (forall n g, 0 < n -> 0 <= fst (Lcg.randbelow n g) < n)
  /\ existsb is_surrogate [115; 101; 101; 100; 95; 8364] = false
  /\ exists p g' num_regs modes decoder_type pipeline_depth exec_units memory_type,
       seed_to_params_points Lcg.rng Lcg.rng_seed Lcg.randbelow
         [115; 101; 101; 100; 95; 8364] 0 = (Ok p, g')
       /\ dict_get p "num_regs" = Some num_regs
       /\ In num_regs [VInt 4; VInt 6; VInt 8]
       /\ dict_get p "decoder_type" = Some decoder_type
       /\ In decoder_type [VStr "hardwired"; VStr "microcoded"]
       /\ dict_get p "pipeline_depth" = Some pipeline_depth
       /\ In pipeline_depth [VInt 2; VInt 3; VInt 4]
       /\ dict_get p "exec_units" = Some exec_units
       /\ In exec_units [VStr "single_alu"; VStr "separate_agu_alu"]
       /\ dict_get p "memory_type" = Some memory_type
       /\ In memory_type [VStr "simple"; VStr "cached"]
       /\ dict_get p "addressing_modes" = Some (VList modes)
       /\ modes <> [] /\ NoDup modes /\ incl modes [VInt 1; VInt 2; VInt 3].
Proof.
  split; [exact lcg_randbelow_range|].
  split; [reflexivity|].
  exact (seed_to_params_in_catalog Lcg.rng Lcg.rng_seed Lcg.randbelow
           lcg_randbelow_range [115; 101; 101; 100; 95; 8364] 0 eq_refl).
Defined.


Lemma wrapper_references_selected_variants_witness :
  valid_point split_units_point
  /\ exists dt mt text decoder_text memory_text name w',
       dict_get split_units_point "decoder_type" = Some (VStr dt)
       /\ dict_get split_units_point "memory_type" = Some (VStr mt)
       /\ generate_top_level_verilog split_units_point "." (mk_world [] []) = (Ok name, w')
       /\ file_get (files w') name = Some text
       /\ instantiated_modules text
          = ["reg_file"; "decoder_" ++ dt; "alu"; "memory_" ++ mt]
       /\ generate_decoder_verilog split_units_point = Ok decoder_text
       /\ declared_modules decoder_text = ["decoder_" ++ dt]
       /\ generate_memory_interface_verilog split_units_point = Ok memory_text
       /\ declared_modules memory_text = ["memory_" ++ mt].
Proof.
  split; [exact split_units_point_valid|].
  exact (wrapper_references_selected_variants split_units_point "." (mk_world [] [])
           split_units_point_valid).
Defined.

Lemma wrapper_instantiates_alu_by_fixed_name_witness :
  dict_get split_units_point "exec_units" = Some (VStr "separate_agu_alu")
  /\ exists text parts alu_text,
       top_template split_units_point = Ok text
       /\ text = text_of_lines
                   (top_lines (VInt 4) (VInt 2) (VStr "hardwired") (VStr "simple")
                      (slice_to MicroX86Params.REG_NAMES 4))
       /\ nth_error
            (top_lines (VInt 4) (VInt 2) (VStr "hardwired") (VStr "simple")
               (slice_to MicroX86Params.REG_NAMES 4)) 44
          = Some "    alu alu_inst ("
       /\ (valid_point split_units_point ->
           nth_error (instantiated_modules text) 2 = Some "alu")
       /\ verilog_parts split_units_point = Ok parts
       /\ nth_error parts 2 = Some alu_text
       /\ generate_alu_verilog split_units_point = Ok alu_text
       /\ (VStr "separate_agu_alu" = VStr "separate_agu_alu" ->
           declared_modules alu_text = ["agu_alu_separate"]
           /\ ~ In "alu" (declared_modules alu_text))
       /\ "alu" <> "agu_alu_separate".
Proof.
  split; [reflexivity|].
  exact (wrapper_instantiates_alu_by_fixed_name split_units_point
           4 (VInt 2) (VStr "hardwired") (VStr "separate_agu_alu") (VStr "simple")
           eq_refl eq_refl eq_refl eq_refl eq_refl).
Defined.

Lemma distance_sums_hash_differences_witness :
  (forall k, In k (map fst (target_of ["compact"; "deep_pipeline"])) ->
             dict_mem Lcg.seed_0_point k = true)
  /\ (exists results g',
        score Lcg.rng Lcg.rng_seed Lcg.randbelow Lcg.py_hash
          (target_of ["compact"; "deep_pipeline"]) ["seed_0"; "seed_1"] 0
        = (Ok results, g'))
  /\ distance Lcg.py_hash (target_of ["compact"; "deep_pipeline"]) Lcg.seed_0_point
     = sum_Z (map (fun kv =>
                     match dict_get Lcg.seed_0_point (fst kv) with
                     | Some v => field_cost Lcg.py_hash v (snd kv)
                     | None => 0
                     end) (target_of ["compact"; "deep_pipeline"])).
Proof.
  assert (Hkeys : forall k, In k (map fst (target_of ["compact"; "deep_pipeline"])) ->
                            dict_mem Lcg.seed_0_point k = true).
  { intros k Hk. cbv in Hk. destruct Hk as [<- | [<- | [<- | []]]]; reflexivity. }
  destruct (distance_sums_hash_differences Lcg.rng Lcg.rng_seed Lcg.randbelow
              lcg_randbelow_range Lcg.py_hash ["seed_0"; "seed_1"]
              ["compact"; "deep_pipeline"] 0)
    as (results & g' & Hrun & _ & Hsum & _).
  split; [exact Hkeys|]. split.
  - exists results, g'. exact Hrun.
  - exact (Hsum Lcg.seed_0_point Hkeys).
Defined.



Lemma artifact_id_of_design_point_alone_witness :
  valid_point Lcg.shared_point
  /\ "seed_10" <> "seed_35"
  /\ seed_to_params Lcg.rng Lcg.rng_seed Lcg.randbelow "seed_10" 0
     = (Ok Lcg.shared_point, 18376010986759332879)
  /\ seed_to_params Lcg.rng Lcg.rng_seed Lcg.randbelow "seed_35" 0
     = (Ok Lcg.shared_point, 17102496194322754793)
  /\ exists id w1' w2' w3,
       id = artifact_id Lcg.shared_point
       /\ generate_top_level_verilog Lcg.shared_point "a" (mk_world [] [])
          = (Ok (path_join "a" ("micro_x86_core_" ++ id ++ ".v")), w1')
       /\ generate_top_level_verilog Lcg.shared_point "a" w1'
          = (Ok (path_join "a" ("micro_x86_core_" ++ id ++ ".v")), w3)
       /\ generate_top_level_verilog Lcg.shared_point "b" (mk_world [] [])
          = (Ok (path_join "b" ("micro_x86_core_" ++ id ++ ".v")), w2').
Proof.
  assert (Hvalid : valid_point Lcg.shared_point).
  { exists (VInt 8), [VInt 1; VInt 3; VInt 2], (VStr "microcoded"), (VInt 4),
      (VStr "single_alu"), (VStr "simple").
    unfold valid_modes. simpl. repeat split; auto; try discriminate.
    - repeat constructor; simpl; intuition discriminate.
    - intros m [<- | [<- | [<- | []]]]; simpl; auto. }
  assert (H10 : seed_to_params Lcg.rng Lcg.rng_seed Lcg.randbelow "seed_10" 0
                = (Ok Lcg.shared_point, 18376010986759332879))
    by (vm_compute; reflexivity).
  assert (H35 : seed_to_params Lcg.rng Lcg.rng_seed Lcg.randbelow "seed_35" 0
                = (Ok Lcg.shared_point, 17102496194322754793))
    by (vm_compute; reflexivity).
  split; [exact Hvalid|]. split; [discriminate|].
  split; [exact H10|]. split; [exact H35|].
  destruct (artifact_id_of_design_point_alone Lcg.rng Lcg.rng_seed Lcg.randbelow
              Lcg.shared_point "a" "b" (mk_world [] []) (mk_world [] []) Hvalid)
    as (id & w1' & w2' & w3 & Hid & _ & Ha & Ha2 & Hb & _).
  exists id, w1', w2', w3. repeat split; assumption.
Defined.


(** ** Where the specification and the program part *)

(** C2, as stated, fails: the str that holds the one code point U+D800, a
    lone surrogate, is a seed on which [seed.encode()] raises
    [UnicodeEncodeError]; the generator is not reseeded and no design point
    comes out. *)
Lemma lone_surrogate_seed_raises :
  (0 <= 55296 <= 1114111)
  /\ seed_to_params_points Lcg.rng Lcg.rng_seed Lcg.randbelow [55296] 0
     = (Raise UnicodeEncodeError, 0)
  /\ ~ (forall seed_points : unicode,
          exists p g',
            seed_to_params_points Lcg.rng Lcg.rng_seed Lcg.randbelow seed_points 0
            = (Ok p, g')).
Proof.
  split; [lia|]. split; [reflexivity|].
  intros Hall. destruct (Hall [55296]) as (p & g' & Hrun). discriminate Hrun.
Qed.




(** C4, as stated, fails, whatever the hash: no positive constant is the cost
    of every mismatch.  A pipeline depth of 2 against a target of 4, of 3
    against 4 and of 3 against 2 would have to cost the same, and three
    numbers are never pairwise at one same positive distance. *)
Lemma distance_is_no_fixed_cost :
  ~ exists (py_hash : string -> Z) (c : Z),
      0 < c
      /\ forall query_words p,
           valid_point p ->
           distance py_hash (target_of query_words) p
           = spec_distance c (target_of query_words) p.
Proof.
  intros (h & c & Hc & Hall).
  assert (Hvalid : forall pd, In pd MicroX86Params.PIPELINE_DEPTHS ->
            valid_point (design_point (VInt 4) [VInt 1] (VStr "hardwired") pd
                           (VStr "single_alu") (VStr "simple"))).
  { intros pd Hpd.
    exists (VInt 4), [VInt 1], (VStr "hardwired"), pd, (VStr "single_alu"), (VStr "simple").
    unfold valid_modes. simpl. repeat split; auto; try discriminate.
    - repeat constructor. intros [].
    - intros m [<- | []]; simpl; auto. }
  pose proof (Hall ["deep_pipeline"] _ (Hvalid (VInt 2) ltac:(simpl; auto))) as H24.
  pose proof (Hall ["deep_pipeline"] _ (Hvalid (VInt 3) ltac:(simpl; auto))) as H34.
  pose proof (Hall ["shallow_pipeline"] _ (Hvalid (VInt 3) ltac:(simpl; auto))) as H32.
  change (target_of ["deep_pipeline"]) with [("pipeline_depth", VInt 4)] in H24, H34.
  change (target_of ["shallow_pipeline"]) with [("pipeline_depth", VInt 2)] in H32.
  rewrite distance_pipeline_depth in H24, H34, H32.
  unfold field_cost in H24, H34, H32.
  change (py_str (VInt 2)) with "2" in *.
  change (py_str (VInt 3)) with "3" in *.
  change (py_str (VInt 4)) with "4" in *.
  cbv [spec_distance sum_Z map fold_right dict_get design_point fst snd] in H24, H34, H32.
  cbn in H24, H34, H32.
  lia.
Qed.

(** C9: the program at a design point with separate_agu_alu.  The artifact
    holds no execution-unit module: the line of the template that was to
    include the generated modules, under the comment Include other modules,
    is written with doubled braces, so the file keeps the text
    [{chr(10).join(verilog_parts)}] and declares the wrapper alone. *)
Lemma artifact_holds_no_execution_unit :
  dict_get split_units_point "exec_units" = Some (VStr "separate_agu_alu")
  /\ exists name w text,
       generate_top_level_verilog split_units_point "." (mk_world [] []) = (Ok name, w)
       /\ file_get (files w) name = Some text
       /\ declared_modules text = ["micro_x86_core"]
       /\ contains "agu_alu_separate" text = false
       /\ contains "{chr(10).join(verilog_parts)}" text = true.
Proof.
  split; [reflexivity|].
  assert (Htop : top_template split_units_point
                 = Ok (text_of_lines
                         (top_lines (VInt 4) (VInt 2) (VStr "hardwired") (VStr "simple")
                            (slice_to MicroX86Params.REG_NAMES 4))))
    by (apply (top_template_run split_units_point 4 (VInt 2) (VStr "hardwired")
                 (VStr "separate_agu_alu") (VStr "simple")); reflexivity).
  destruct (written_file split_units_point "." _ (mk_world [] []) Htop)
    as (name & w & Hrun & _ & Hfile).
  eexists name, w, _. split; [exact Hrun|]. split; [exact Hfile|].
  repeat split; vm_compute; reflexivity.
Qed.

(** ** The further facts at concrete inputs *)

(** A dict without [memory_type]: the composer raises after the three other
    generators have run, and before anything is written. *)
Lemma composer_raises_on_incomplete_dict_witness :
  ((exists k,
       In k ["num_regs"; "pipeline_depth"; "decoder_type"; "exec_units"; "memory_type"]
       /\ dict_get point_without_memory k = None)
   \/ (exists v, dict_get point_without_memory "num_regs" = Some v
                 /\ forall z, v <> VInt z))
  /\ exists e,
       generate_top_level_verilog point_without_memory "." (mk_world [] [])
       = (Raise e, mk_world [] [])
       /\ ((e = TypeError
            /\ exists v, dict_get point_without_memory "num_regs" = Some v
                         /\ forall z, v <> VInt z)
           \/ exists k,
                In k ["num_regs"; "pipeline_depth"; "decoder_type"; "exec_units";
                      "memory_type"]
                /\ e = KeyError k /\ dict_get point_without_memory k = None).
Proof.
  assert (Hbad : (exists k,
                     In k ["num_regs"; "pipeline_depth"; "decoder_type"; "exec_units";
                           "memory_type"]
                     /\ dict_get point_without_memory k = None)
                 \/ (exists v, dict_get point_without_memory "num_regs" = Some v
                               /\ forall z, v <> VInt z)).
  { left. exists "memory_type". split; [simpl; auto 10 | reflexivity]. }
  split; [exact Hbad|].
  exact (composer_raises_on_incomplete_dict point_without_memory "." (mk_world [] [])
           Hbad).
Defined.

Lemma generated_modules_in_fixed_order_witness :
  valid_point split_units_point
  /\ exists dt eu mt parts,
       dict_get split_units_point "decoder_type" = Some (VStr dt)
       /\ dict_get split_units_point "exec_units" = Some (VStr eu)
       /\ dict_get split_units_point "memory_type" = Some (VStr mt)
       /\ verilog_parts split_units_point = Ok parts
       /\ map declared_modules parts
          = [["reg_file"]; ["decoder_" ++ dt];
             [if String.eqb eu "single_alu" then "alu" else "agu_alu_separate"];
             ["memory_" ++ mt]]
       /\ map instantiated_modules parts = [[]; []; []; []].
Proof.
  split; [exact split_units_point_valid|].
  exact (generated_modules_in_fixed_order split_units_point split_units_point_valid).
Defined.

(** Twelve registers declared, eight named. *)
Lemma wrapper_names_at_most_eight_registers_witness :
  dict_get twelve_register_point "num_regs" = Some (VInt 12)
  /\ exists lines names,
       top_template twelve_register_point = Ok (text_of_lines lines)
       /\ nth_error lines 6 = Some ("    parameter NUM_REGS = " ++ str_int 12 ++ ",")
       /\ nth_error lines 71
          = Some ("    // Register names for simulation: " ++ join ", " names)
       /\ names = slice_to MicroX86Params.REG_NAMES 12
       /\ (0 <= 12 -> names = firstn (Z.to_nat 12) MicroX86Params.REG_NAMES
                      /\ len names = Z.min 8 12)
       /\ (12 < 0 -> len names = Z.max 0 (8 + 12)).
Proof.
  split; [reflexivity|].
  exact (wrapper_names_at_most_eight_registers twelve_register_point
           12 (VInt 2) (VStr "hardwired") (VStr "single_alu") (VStr "simple")
           eq_refl eq_refl eq_refl eq_refl eq_refl).
Defined.

(** compact after powerful: both fields of compact win. *)
Lemma later_word_overrides_witness :
  lexicon_get MicroX86Params.LEXICON "compact"
  = Some [("num_regs", VInt 4); ("addressing_modes", VList [VInt 1])]
  /\ dict_get (target_of (["powerful"; "deep_pipeline"] ++ ["compact"])) "num_regs"
     = match dict_get [("num_regs", VInt 4); ("addressing_modes", VList [VInt 1])]
               "num_regs" with
       | Some v => Some v
       | None => dict_get (target_of ["powerful"; "deep_pipeline"]) "num_regs"
       end.
Proof.
  split; [reflexivity|].
  exact (later_word_overrides ["powerful"; "deep_pipeline"] "compact"
           [("num_regs", VInt 4); ("addressing_modes", VList [VInt 1])]
           "num_regs" eq_refl).
Defined.

Lemma ineffective_words_change_nothing_witness :
  (forall n g, 0 < n -> 0 <= fst (Lcg.randbelow n g) < n)
  /\ similarity_search Lcg.rng Lcg.rng_seed Lcg.randbelow Lcg.py_hash
       example_seeds ["cisc"; "compact"; "fast_memory"] 5 0
     = similarity_search Lcg.rng Lcg.rng_seed Lcg.randbelow Lcg.py_hash
         example_seeds (filter effective_word ["cisc"; "compact"; "fast_memory"]) 5 0.
Proof.
  split; [exact lcg_randbelow_range|].
  exact (ineffective_words_change_nothing Lcg.rng Lcg.rng_seed Lcg.randbelow
           lcg_randbelow_range Lcg.py_hash example_seeds
           ["cisc"; "compact"; "fast_memory"] 5 0).
Defined.

Lemma search_distances_bounded_witness :
  (forall n g, 0 < n -> 0 <= fst (Lcg.randbelow n g) < n)
  /\ similarity_search Lcg.rng Lcg.rng_seed Lcg.randbelow Lcg.py_hash
       ["seed_0"; "seed_1"] ["powerful"; "deep_pipeline"] 5 0
     = (Ok [("seed_1", 21); ("seed_0", 28)], 12902211717514313000)
  /\ Forall (fun m => 0 <= snd m <= 297) [("seed_1", 21); ("seed_0", 28)].
Proof.
  split; [exact lcg_randbelow_range|].
  split; [vm_compute; reflexivity|].
  exact (search_distances_bounded Lcg.rng Lcg.rng_seed Lcg.randbelow
           lcg_randbelow_range Lcg.py_hash ["seed_0"; "seed_1"]
           ["powerful"; "deep_pipeline"] 5 0 12902211717514313000
           [("seed_1", 21); ("seed_0", 28)] ltac:(vm_compute; reflexivity)).
Defined.



(** A [yosys] that rejects the file. *)
Lemma verify_verdict_witness :
  Tools.failing_command (syntax_check_command "core.v") (mk_world [] []) = Some 1
  /\ exists verdict w',
       verify_verilog Tools.failing_command Tools.run_shell "core.v" (mk_world [] [])
       = (Returns verdict, w')
       /\ (verdict = true <->
           1 = 0
           /\ contains "Error"
                (snd (Tools.run_shell (synth_command "core.v")
                        (mk_world (files (mk_world [] []))
                           (List.app (stdout (mk_world [] []))
                              ["Syntax check passed."]))))
              = false)
       /\ (1 <> 0 ->
           verdict = false
           /\ stdout w' = List.app (stdout (mk_world [] [])) ["Verification failed."]).
Proof.
  split; [reflexivity|].
  exact (verify_verdict Tools.failing_command Tools.run_shell "core.v"
           (mk_world [] []) 1 eq_refl).
Defined.

Lemma main_without_seed_exits_witness :
  (List.length ["cpu_babel_generator.py"] < 2)%nat
  /\ main Lcg.rng Lcg.rng_seed Lcg.randbelow Lcg.py_hash Tools.run_command
       Tools.run_shell ["cpu_babel_generator.py"] (0, mk_world [] [])
     = (Exits 1,
        (0, mk_world (files (mk_world [] []))
              (List.app (stdout (mk_world [] []))
                 ["Usage: python cpu_babel_generator.py <seed> [query_words...]"]))).
Proof.
  split; [simpl; lia|].
  exact (main_without_seed_exits Lcg.rng Lcg.rng_seed Lcg.randbelow Lcg.py_hash
           Tools.run_command Tools.run_shell ["cpu_babel_generator.py"] 0
           (mk_world [] []) ltac:(simpl; lia)).
Defined.

(** The run of seed_0 with the query compact, on tools that succeed. *)
Lemma main_completed_run_witness :
  main Lcg.rng Lcg.rng_seed Lcg.randbelow Lcg.py_hash Tools.run_command
    Tools.run_shell ["cpu_babel_generator.py"; "seed_0"; "compact"]
    (0, mk_world [] [])
  = (Returns tt,
     (fst (snd (main Lcg.rng Lcg.rng_seed Lcg.randbelow Lcg.py_hash
                  Tools.run_command Tools.run_shell
                  ["cpu_babel_generator.py"; "seed_0"; "compact"]
                  (0, mk_world [] []))),
      snd (snd (main Lcg.rng Lcg.rng_seed Lcg.randbelow Lcg.py_hash
                  Tools.run_command Tools.run_shell
                  ["cpu_babel_generator.py"; "seed_0"; "compact"]
                  (0, mk_world [] [])))))
  /\ exists script seed_str query_words p text name search_lines verify_lines,
       ["cpu_babel_generator.py"; "seed_0"; "compact"]
       = script :: seed_str :: query_words
       /\ fst (seed_to_params Lcg.rng Lcg.rng_seed Lcg.randbelow seed_str 0) = Ok p
       /\ top_template p = Ok text
       /\ name = "./micro_x86_core_" ++ artifact_id p ++ ".v"
       /\ files (snd (snd (main Lcg.rng Lcg.rng_seed Lcg.randbelow Lcg.py_hash
                             Tools.run_command Tools.run_shell
                             ["cpu_babel_generator.py"; "seed_0"; "compact"]
                             (0, mk_world [] []))))
          = ("assembler.py", text_of_lines assembler_lines)
              :: (name, text) :: files (mk_world [] [])
       /\ stdout (snd (snd (main Lcg.rng Lcg.rng_seed Lcg.randbelow Lcg.py_hash
                              Tools.run_command Tools.run_shell
                              ["cpu_babel_generator.py"; "seed_0"; "compact"]
                              (0, mk_world [] []))))
          = List.app (stdout (mk_world [] []))
              (List.app ["Generated params: " ++ str_dict p;
                         "Generated Verilog: " ++ name]
                 (List.app search_lines
                    (List.app verify_lines ["Assembler generated: assembler.py"])))
       /\ ((query_words = [] /\ search_lines = [])
           \/ (query_words <> []
               /\ exists matches,
                    search_lines = ["Search results: " ++ repr_matches matches]
                    /\ (List.length matches <= 5)%nat)).
Proof.
  split; [vm_compute; reflexivity|].
  exact (main_completed_run Lcg.rng Lcg.rng_seed Lcg.randbelow
           lcg_randbelow_range Lcg.py_hash Tools.run_command Tools.run_shell
           ["cpu_babel_generator.py"; "seed_0"; "compact"] 0 _
           (mk_world [] []) _ ltac:(vm_compute; reflexivity)).
Defined.


